(** * KinFin build pipeline: cluster filtering, singleton inference,
      id-mapping and annotation parsing, and the run-summary endpoint.

    Shallow embedding of [core/build.py] and of [get_run_summary] in
    [api/endpoints.py].  Python [str] values are Rocq strings whose
    characters are code points below 256; Python integers are [nat] where
    the code only counts and [Z] where it parses; exceptions are an explicit
    error type threaded through a small result monad. *)

From Stdlib Require Import ZArith Ascii String.
From stdpp Require Import base option list strings gmap sorting pretty.

Local Open Scope string_scope.
Local Open Scope list_scope.

(** ** Exceptions and the result monad *)

Inductive value_error :=
  | NoHeader (msg : string)       (* raise ValueError(error_msg) in the annotation parser *)
  | Unpack (got : nat)            (* a, b = <sequence of another length> *)
  | IntLiteral (lit : string).    (* int(<not an integer literal>) *)

Inductive exn :=
  | KeyError (key : string)
  | IndexError
  | ValueError (why : value_error).

Inductive result (A : Type) :=
  | Ok (a : A)
  | Raise (e : exn).
Arguments Ok {A} a.
Arguments Raise {A} e.

Definition bind {A B} (r : result A) (k : A -> result B) : result B :=
  match r with
  | Ok a => k a
  | Raise e => Raise e
  end.

Notation "x <- r ;; k" := (bind r (fun x => k))
  (at level 100, r at next level, right associativity).

(** for x in xs: st = body(x, st), stopping at the first exception. *)
Fixpoint for_each {A S} (body : A -> S -> result S) (xs : list A) (st : S) : result S :=
  match xs with
  | [] => Ok st
  | x :: xs' => st' <- body x st ;; for_each body xs' st'
  end.

(** ** The [str] methods the code calls *)

Module Py.

Definition nl : ascii := "010"%char.

Fixpoint startswith (p s : string) : bool :=
  match p, s with
  | EmptyString, _ => true
  | String a p', String b s' => if decide (a = b) then startswith p' s' else false
  | String _ _, EmptyString => false
  end.

Definition cons_hd (c : ascii) (pieces : list string) : list string :=
  match pieces with
  | [] => [String c ""]
  | p :: rest => String c p :: rest
  end.

(** [s.split(sep)] for a non-empty [sep]: leftmost, non-overlapping
    occurrences; [skip] counts the characters of a matched separator that
    are still to be passed over. *)
Fixpoint split_go (sep : string) (skip : nat) (s : string) : list string :=
  match s with
  | EmptyString => [""]
  | String c s' =>
      match skip with
      | S k => split_go sep k s'
      | O =>
          if startswith sep s
          then "" :: split_go sep (String.length sep - 1) s'
          else cons_hd c (split_go sep 0 s')
      end
  end.

Definition split (sep s : string) : list string := split_go sep 0 s.

(** [s.split()]: runs of whitespace separate, no empty pieces. *)
Definition isspace (c : ascii) : bool :=
  let n := nat_of_ascii c in
  (((9 <=? n) && (n <=? 13)) || ((28 <=? n) && (n <=? 32)) || (n =? 133) || (n =? 160))%nat.

Fixpoint split_ws_go (cur : option string) (s : string) : list string :=
  match s with
  | EmptyString => match cur with Some w => [w] | None => [] end
  | String c s' =>
      if isspace c
      then match cur with Some w => w :: split_ws_go None s' | None => split_ws_go None s' end
      else match split_ws_go (Some "") s' with
           | w :: rest => String c w :: rest
           | [] => [String c ""]
           end
  end.

Definition split_ws (s : string) : list string := split_ws_go None s.

(** [s.replace(old, new)] where [old] is one character. *)
Fixpoint replace (old : ascii) (new s : string) : string :=
  match s with
  | EmptyString => ""
  | String c s' =>
      if decide (c = old) then new +:+ replace old new s' else String c (replace old new s')
  end.

(** [s.rstrip("\n")] *)
Fixpoint rstrip_nl (s : string) : string :=
  match s with
  | EmptyString => ""
  | String c s' =>
      match rstrip_nl s' with
      | EmptyString => if decide (c = nl) then "" else String c ""
      | r => String c r
      end
  end.

(** [sep.join(xs)] *)
Fixpoint join (sep : string) (xs : list string) : string :=
  match xs with
  | [] => ""
  | [x] => x
  | x :: xs' => x +:+ sep +:+ join sep xs'
  end.

(** [s.rsplit(":", 2)]: at most two splits, counted from the right. *)
Definition rsplit_colon_2 (s : string) : list string :=
  let pieces := split ":" s in
  let n := length pieces in
  if decide (n <= 3) then pieces
  else join ":" (take (n - 2) pieces) :: drop (n - 2) pieces.

(** The lines a text file handle yields: each keeps its newline, the last
    one may lack it. *)
Fixpoint readlines (content : string) : list string :=
  match content with
  | EmptyString => []
  | String c rest =>
      if decide (c = nl) then String c "" :: readlines rest
      else match readlines rest with
           | [] => [String c ""]
           | l :: ls => String c l :: ls
           end
  end.

(** [list.sort()] on strings: ascending by code point. *)
Definition sort (xs : list string) : list string := merge_sort String.le xs.

(** [int(s)] for the literals a whitespace-split field can hold: an
    optional sign, then decimal digits, single underscores allowed between
    digits. *)
Definition digit (c : ascii) : option Z :=
  let n := nat_of_ascii c in
  if ((48 <=? n) && (n <=? 57))%nat then Some (Z.of_nat (n - 48)) else None.

Fixpoint digits_go (acc : Z) (after_digit : bool) (s : string) : option Z :=
  match s with
  | EmptyString => if after_digit then Some acc else None
  | String c s' =>
      match digit c with
      | Some d => digits_go (10 * acc + d) true s'
      | None =>
          if bool_decide (c = "_"%char) && after_digit
          then match s' with
               | EmptyString => None
               | String c' _ =>
                   match digit c' with
                   | Some _ => digits_go acc false s'
                   | None => None
                   end
               end
          else None
      end
  end.

Definition int (s : string) : result Z :=
  let parsed :=
    match s with
    | String "-" s' => Z.opp <$> digits_go 0 false s'
    | String "+" s' => digits_go 0 false s'
    | _ => digits_go 0 false s
    end in
  match parsed with
  | Some z => Ok z
  | None => Raise (ValueError (IntLiteral s))
  end.

End Py.

(** ** JSON values and [json.dump(obj, fh, separators=(", ", ": "), indent=4)] *)

Module Json.

(** What [json.load] returns and [json.dump] accepts, without floats: a
    [dict] is its items in insertion order. *)
#[local] Unset Elimination Schemes.
Inductive t :=
  | JNull
  | JBool (b : bool)
  | JInt (n : Z)
  | JStr (s : string)
  | JList (items : list t)
  | JDict (items : list (string * t)).

#[local] Set Elimination Schemes.

Definition hex_digit (n : nat) : ascii :=
  ascii_of_nat (if (n <? 10)%nat then 48 + n else 87 + n).

Definition dquote : ascii := "034"%char.

(** One character of a string literal, [ensure_ascii=True]. *)
Definition escape_char (c : ascii) : string :=
  let n := nat_of_ascii c in
  if decide (c = dquote) then String "\" (String dquote "")
  else if decide (c = "\"%char) then "\\"
  else if decide (n = 8) then "\b"
  else if decide (n = 9) then "\t"
  else if decide (n = 10) then "\n"
  else if decide (n = 12) then "\f"
  else if decide (n = 13) then "\r"
  else if ((32 <=? n) && (n <=? 126))%nat then String c ""
  else "\u00" +:+ String (hex_digit (n / 16)) (String (hex_digit (n mod 16)) "").

Fixpoint escape (s : string) : string :=
  match s with
  | EmptyString => ""
  | String c s' => escape_char c +:+ escape s'
  end.

Definition quote (s : string) : string :=
  String dquote (escape s) +:+ String dquote "".

Fixpoint spaces (n : nat) : string :=
  match n with
  | O => ""
  | S n' => String " " (spaces n')
  end.

Definition newline_indent (level : nat) : string :=
  String Py.nl (spaces (4 * level)).

Fixpoint dumps_at (level : nat) (v : t) {struct v} : string :=
  match v with
  | JNull => "null"
  | JBool true => "true"
  | JBool false => "false"
  | JInt n => pretty n
  | JStr s => quote s
  | JList [] => "[]"
  | JList items =>
      "[" +:+ newline_indent (S level)
          +:+ Py.join (", " +:+ newline_indent (S level)) (map (dumps_at (S level)) items)
          +:+ newline_indent level +:+ "]"
  | JDict [] => "{}"
  | JDict items =>
      "{" +:+ newline_indent (S level)
          +:+ Py.join (", " +:+ newline_indent (S level))
               (map (fun kv => quote (fst kv) +:+ ": " +:+ dumps_at (S level) (snd kv)) items)
          +:+ newline_indent level +:+ "}"
  end.

Definition dump (v : t) : string := dumps_at 0 v.

(** [d[k]] / [k in d] on a parsed object. *)
Fixpoint lookup (k : string) (items : list (string * t)) : option t :=
  match items with
  | [] => None
  | (k', v) :: rest => if decide (k = k') then Some v else lookup k rest
  end.

End Json.

(** ** Data model *)

(** Modelled from the spec: class [Protein] of core/proteins.py, which is
    not among the sources.  Identity [protein_id, proteome_id, species_id,
    sequence_id]; mutable [clustered], per-source domain counters and GO
    terms. *)
Record Protein := mkProtein {
  protein_id : string;
  proteome_id : string;
  species_id : string;
  sequence_id : string;
  clustered : bool;
  domain_counter_by_domain_source : gmap string (gmap string Z);
  go_terms : list string
}.

(** Modelled from the spec: the constructor call
    [Protein(protein_id, proteome_id, species_id, sequence_id)]; a new
    protein is in no cluster and carries no annotation. *)
Definition new_Protein (pid proteome species seq : string) : Protein :=
  mkProtein pid proteome species seq false ∅ [].

Definition set_clustered (p : Protein) : Protein :=
  mkProtein (protein_id p) (proteome_id p) (species_id p) (sequence_id p)
            true (domain_counter_by_domain_source p) (go_terms p).

(** Modelled from the spec: class [ProteinCollection] of core/proteins.py
    (the Protein Store), which is not among the sources.  [proteins_list]
    holds the proteins in insertion order; [proteins_by_protein_id] resolves
    an id to the protein stored under it, here to its position in
    [proteins_list], so that a change made through the lookup is seen when
    the list is walked.  Ids are unique in a store. *)
Record ProteinCollection := mkProteinCollection {
  proteins_list : list Protein;
  domain_sources : list string;
  functional_annotation_parsed : bool;
  fastas_parsed : bool
}.

(** Modelled from the spec: the dict [proteins_by_protein_id] of the
    Protein Store; [None] is the [KeyError] of [d[pid]]. *)
Definition proteins_by_protein_id (pc : ProteinCollection) (pid : string) : option nat :=
  fst <$> list_find (fun p => protein_id p = pid) (proteins_list pc).

Definition with_proteins (pc : ProteinCollection) (l : list Protein) : ProteinCollection :=
  mkProteinCollection l (domain_sources pc) (functional_annotation_parsed pc) (fastas_parsed pc).

(** Modelled from the spec: class [Cluster] of core/clusters.py, which is
    not among the sources: a cluster id and its member protein ids, as
    handed to the constructor. *)
Record Cluster := mkCluster {
  cluster_id : string;
  protein_ids : list string
}.

(** ** get_singletons *)

(** One pass of the loop body of [get_singletons] over [protein]; the
    state is [cluster_list] and [singleton_idx]. *)
Definition singleton_step (st : list Cluster * nat) (protein : Protein) : list Cluster * nat :=
  let '(cluster_list, singleton_idx) := st in
  if clustered protein then st
  else
    let cluster := mkCluster ("singleton_" +:+ pretty singleton_idx) [protein_id protein] in
    (cluster_list ++ [cluster], S singleton_idx).

(** Returns the extended [cluster_list] and [singleton_idx]. *)
Definition get_singletons (pc : ProteinCollection) (cluster_list : list Cluster)
  : list Cluster * nat :=
  foldl singleton_step (cluster_list, 0) (proteins_list pc).

(** ** parse_cluster_file *)

Record Stats := mkStats {
  total_clusters : nat;
  total_proteins : nat;
  total_proteomes : nat;
  filtered_clusters : nat;
  filtered_proteins : nat;
  included_proteins : list string;
  excluded_proteins : list string;
  included_proteomes : list (string * nat);   (* defaultdict(int), in insertion order *)
  excluded_proteomes : list (string * nat)
}.

(** [d[k] += 1] on a [defaultdict(int)]: a new key goes last. *)
Fixpoint incr (k : string) (d : list (string * nat)) : list (string * nat) :=
  match d with
  | [] => [(k, 1)]
  | (k', n) :: d' => if decide (k' = k) then (k', S n) :: d' else (k', n) :: incr k d'
  end.

(** [xs[0]] on the result of [split], which is never empty. *)
Definition first (xs : list string) : string := hd "" xs.

(** [protein_id.split(".")[0]] *)
Definition proteome_of (pid : string) : string := first (Py.split "." pid).

(** The set [available_proteomes] is given by its elements in whatever
    order the interpreter holds them; the code only tests membership and
    takes its size. *)
Definition is_available (available_proteomes : list string) (pid : string) : bool :=
  bool_decide (proteome_of pid ∈ available_proteomes).

(** Lines 106-114: one protein id of the current line. *)
Definition classify (available_proteomes : list string)
    (acc : list string * Stats) (pid : string) : list string * Stats :=
  let '(filtered_protein_ids, st) := acc in
  if is_available available_proteomes pid
  then (filtered_protein_ids ++ [pid],
        mkStats (total_clusters st) (total_proteins st) (total_proteomes st)
                (filtered_clusters st) (filtered_proteins st)
                (included_proteins st ++ [pid]) (excluded_proteins st)
                (incr (proteome_of pid) (included_proteomes st)) (excluded_proteomes st))
  else (filtered_protein_ids,
        mkStats (total_clusters st) (total_proteins st) (total_proteomes st)
                (filtered_clusters st) (filtered_proteins st)
                (included_proteins st) (excluded_proteins st ++ [pid])
                (included_proteomes st) (incr (proteome_of pid) (excluded_proteomes st))).

(** What the loop over the cluster file has built so far. *)
Record loop_state := mkLoop {
  stats : Stats;
  cluster_list : list Cluster;
  ofh : string;                      (* written to orthogroups.filtered.txt *)
  proteinCollection : ProteinCollection
}.

(** Lines 124-126 for one id: look the protein up, set its flag. *)
Definition mark_clustered (pid : string) (pc : ProteinCollection) : result ProteinCollection :=
  match proteins_by_protein_id pc pid with
  | None => Raise (KeyError pid)
  | Some i => Ok (with_proteins pc (alter set_clustered i (proteins_list pc)))
  end.

Definition cluster_id_of (temp : list string) : string := Py.replace ":" "" (first temp).
Definition protein_ids_of (temp : list string) : list string :=
  filter (fun pid => pid ≠ "") (tail temp).

Definition filtered_line (cid : string) (filtered_protein_ids : list string) : string :=
  cid +:+ ": " +:+ Py.join ", " (Py.sort filtered_protein_ids) +:+ String Py.nl "".

(** Lines 100-130: the body of the loop for one line of the cluster file. *)
Definition process_line (available_proteomes : list string)
    (line : string) (s : loop_state) : result loop_state :=
  let st := stats s in
  let st := mkStats (S (total_clusters st)) (total_proteins st) (total_proteomes st)
                    (filtered_clusters st) (filtered_proteins st)
                    (included_proteins st) (excluded_proteins st)
                    (included_proteomes st) (excluded_proteomes st) in
  let temp := Py.split " " (Py.rstrip_nl line) in
  let cid := cluster_id_of temp in
  let pids := protein_ids_of temp in
  let '(filtered_protein_ids, st) := foldl (classify available_proteomes) ([], st) pids in
  let st := mkStats (total_clusters st) (total_proteins st + length pids) (total_proteomes st)
                    (filtered_clusters st) (filtered_proteins st + length filtered_protein_ids)
                    (included_proteins st) (excluded_proteins st)
                    (included_proteomes st) (excluded_proteomes st) in
  match filtered_protein_ids with
  | [] => Ok (mkLoop st (cluster_list s) (ofh s) (proteinCollection s))
  | _ :: _ =>
      let cluster := mkCluster cid filtered_protein_ids in
      pc <- for_each mark_clustered filtered_protein_ids (proteinCollection s) ;;
      let st := mkStats (total_clusters st) (total_proteins st) (total_proteomes st)
                        (S (filtered_clusters st)) (filtered_proteins st)
                        (included_proteins st) (excluded_proteins st)
                        (included_proteomes st) (excluded_proteomes st) in
      Ok (mkLoop st (cluster_list s ++ [cluster])
                 (ofh s +:+ filtered_line cid filtered_protein_ids) pc)
  end.

Definition counts_to_json (d : list (string * nat)) : Json.t :=
  Json.JDict (map (fun kv => (fst kv, Json.JInt (Z.of_nat (snd kv)))) d).

Definition strings_to_json (l : list string) : Json.t :=
  Json.JList (map Json.JStr l).

(** Lines 136-158: the counts of distinct ids, then the reordered stats. *)
Definition ordered_stats (st : Stats) : list (string * Json.t) :=
  let included_proteins_count := length (remove_dups (included_proteins st)) in
  let excluded_proteins_count := length (remove_dups (excluded_proteins st)) in
  [ ("total_clusters", Json.JInt (Z.of_nat (total_clusters st)));
    ("total_proteins", Json.JInt (Z.of_nat (total_proteins st)));
    ("total_proteomes", Json.JInt (Z.of_nat (total_proteomes st)));
    ("filtered_clusters", Json.JInt (Z.of_nat (filtered_clusters st)));
    ("filtered_proteins", Json.JInt (Z.of_nat (filtered_proteins st)));
    ("included_proteins_count", Json.JInt (Z.of_nat included_proteins_count));
    ("excluded_proteins_count", Json.JInt (Z.of_nat excluded_proteins_count));
    ("included_proteomes", counts_to_json (included_proteomes st));
    ("excluded_proteomes", counts_to_json (excluded_proteomes st));
    ("included_proteins", strings_to_json (included_proteins st));
    ("excluded_proteins", strings_to_json (excluded_proteins st)) ].

(** What a run that returns leaves behind. *)
Record parsed := mkParsed {
  returned : list Cluster;                 (* the return value *)
  filtered_txt : string;                   (* orthogroups.filtered.txt *)
  final_stats : Stats;
  summary_json : string;                   (* summary.json *)
  proteins_after : ProteinCollection       (* the collection, flags updated *)
}.

Definition initial_stats (available_proteomes : list string) : Stats :=
  mkStats 0 0 (length available_proteomes) 0 0 [] [] [] [].

(** [cluster_f] is the content of the cluster file. *)
Definition parse_cluster_file (cluster_f : string) (pc : ProteinCollection)
    (available_proteomes : list string) : result parsed :=
  s <- for_each (process_line available_proteomes) (Py.readlines cluster_f)
         (mkLoop (initial_stats available_proteomes) [] "" pc) ;;
  Ok (mkParsed (cluster_list s) (ofh s) (stats s)
               (Json.dump (Json.JDict (ordered_stats (stats s))))
               (proteinCollection s)).

(** Lines 386-395 of [build_ClusterCollection]: the cluster list and the
    number of inferred singletons handed to [ClusterCollection]. *)
Definition build_ClusterCollection (cluster_f : string) (pc : ProteinCollection)
    (infer_singletons : bool) (available_proteomes : list string)
  : result (list Cluster * nat) :=
  r <- parse_cluster_file cluster_f pc available_proteomes ;;
  if infer_singletons
  then Ok (get_singletons (proteins_after r) (returned r))
  else Ok (returned r, 0).

Definition demo_proteins : ProteinCollection :=
  mkProteinCollection
    [ new_Protein "A.1" "A" "0" "0_0"; new_Protein "A.2" "A" "0" "0_1";
      new_Protein "A.3" "A" "0" "0_2"; new_Protein "B.1" "B" "1" "1_0";
      new_Protein "B.2" "B" "1" "1_1" ] [] false false.

Definition demo_cluster_f : string :=
  "OG1: B.1 A.2 C.1 A.1" +:+ String Py.nl ("OG2: C.2 C.3" +:+ String Py.nl ("OG3: A.3" +:+ String Py.nl "")).

(** ** get_protein_list_from_seq_f *)

(** [temp[1].split(" ")[0].replace(":", "_").replace(",", "_")
    .replace("(", "_").replace(")", "_")] *)
Definition protein_id_of_field (field : string) : string :=
  Py.replace ")" "_" (Py.replace "(" "_" (Py.replace "," "_" (Py.replace ":" "_"
    (first (Py.split " " field))))).

(** [sequence_id.split("_")[0]] *)
Definition species_of (seq_id : string) : string := first (Py.split "_" seq_id).

(** The loop body of [get_protein_list_from_seq_f] for one line.  Of the
    [AloCollection] only the dict [proteome_id_by_species_id] is read. *)
Definition seq_line (proteome_id_by_species_id : gmap string string)
    (line : string) (proteins : list Protein) : result (list Protein) :=
  let temp := Py.split ": " line in
  let seq_id := first temp in
  match temp !! 1 with
  | None => Raise IndexError
  | Some field =>
      let pid := protein_id_of_field field in
      let species := species_of seq_id in
      match proteome_id_by_species_id !! species with
      | Some proteome =>
          if decide (proteome = "") then Ok proteins
          else Ok (proteins ++ [new_Protein pid proteome species seq_id])
      | None => Ok proteins
      end
  end.

(** [lines] are the lines [yield_file_lines(sequence_ids_f)] yields. *)
Definition get_protein_list_from_seq_f (lines : list string)
    (proteome_id_by_species_id : gmap string string) : result (list Protein) :=
  for_each (seq_line proteome_id_by_species_id) lines [].

(** ** parse_domains_from_functional_annotations_file *)

Definition set_annotation (counters : gmap string (gmap string Z)) (go : list string)
    (p : Protein) : Protein :=
  mkProtein (protein_id p) (proteome_id p) (species_id p) (sequence_id p)
            (clustered p) counters go.

(** Modelled from the spec: [ProteinCollection.add_annotation_to_protein] of
    core/proteins.py, which is not among the sources.  Attaching an
    annotation changes only the non-identity fields of the protein the id
    resolves to; an id that resolves to no protein leaves the store as it
    is. *)
Definition add_annotation_to_protein (pc : ProteinCollection) (domain_protein_id : string)
    (counters : gmap string (gmap string Z)) (go : list string) : ProteinCollection :=
  match proteins_by_protein_id pc domain_protein_id with
  | Some i => with_proteins pc (alter (set_annotation counters go) i (proteins_list pc))
  | None => pc
  end.

Definition with_domain_sources (pc : ProteinCollection) (l : list string) : ProteinCollection :=
  mkProteinCollection (proteins_list pc) l (functional_annotation_parsed pc) (fastas_parsed pc).

Definition with_annotation_parsed (pc : ProteinCollection) : ProteinCollection :=
  mkProteinCollection (proteins_list pc) (domain_sources pc) true (fastas_parsed pc).

Definition header_error_msg (functional_annotation_f : string) : string :=
  "[ERROR] - " +:+ functional_annotation_f +:+ " does not seem to have a header.".

(** Lines 220-228: one [domain_id_count] of a field. *)
Definition count_entry (domain_source : string) (domain_id_count : string)
    (domain_counts_by_domain_id : gmap string Z) : result (gmap string Z) :=
  if decide (domain_source = "GO")
  then Ok (<[domain_id_count := 1%Z]> domain_counts_by_domain_id)
  else
    match Py.rsplit_colon_2 domain_id_count with
    | [domain_id; domain_count_str] =>
        domain_count <- Py.int domain_count_str ;;
        Ok (<[domain_id := domain_count]> domain_counts_by_domain_id)
    | parts => Raise (ValueError (Unpack (length parts)))
    end.

(** Lines 216-230: one enumerated field of a data row. *)
Definition field_entry (sources : list string) (idx_field : nat * string)
    (domain_counter_by_domain_source : gmap string (gmap string Z))
  : result (gmap string (gmap string Z)) :=
  let '(idx, field) := idx_field in
  if decide (field = "None") then Ok domain_counter_by_domain_source
  else
    match sources !! idx with
    | None => Raise IndexError
    | Some domain_source =>
        domain_counter <- for_each (count_entry domain_source) (Py.split ";" field) ∅ ;;
        Ok (<[domain_source := domain_counter]> domain_counter_by_domain_source)
    end.

(** Lines 213-230: the counters of a data row whose fields are [temp]
    (the protein id already popped). *)
Definition row_counters (sources : list string) (temp : list string)
  : result (gmap string (gmap string Z)) :=
  for_each (field_entry sources) (imap pair temp) ∅.

(** Lines 203-235: the loop body for one line. *)
Definition annotation_row (functional_annotation_f : string)
    (line : string) (pc : ProteinCollection) : result ProteinCollection :=
  match Py.split_ws line with
  | [] => Raise IndexError
  | t0 :: temp =>
      if Py.startswith "#" t0 then Ok (with_domain_sources pc temp)
      else
        match domain_sources pc with
        | [] => Raise (ValueError (NoHeader (header_error_msg functional_annotation_f)))
        | _ :: _ =>
            counters <- row_counters (domain_sources pc) temp ;;
            Ok (add_annotation_to_protein pc t0 counters [])
        end
  end.

(** [lines] are the lines [yield_file_lines(functional_annotation_f)] yields. *)
Definition parse_domains_from_functional_annotations_file
    (functional_annotation_f : string) (lines : list string) (pc : ProteinCollection)
  : result ProteinCollection :=
  pc' <- for_each (annotation_row functional_annotation_f) lines pc ;;
  Ok (with_annotation_parsed pc').

(** ** The run-summary endpoint *)

Module Api.

Record ResponseSchema := mkResponse {
  status : string;
  message : string;
  error : option string;
  data : option Json.t
}.

Record JSONResponse := mkJSONResponse {
  content : ResponseSchema;
  status_code : nat
}.

(** What a request finds on disk for its session. *)
Record session := mkSession {
  session_dir : option string;           (* query_manager.get_session_dir(session_id) *)
  run_status : option (option string);   (* the status file, if there, and its "status" entry *)
  summary_file : option (option Json.t)  (* summary.json, if there, and what json.load makes of it *)
}.

Definition internal_server_error (e : string) : JSONResponse :=
  mkJSONResponse (mkResponse "error" "Internal Server Error" (Some e) None) 500.

Definition RUN_SUMMARY_FILEPATH : string := "summary.json".

Definition hidden_keys : list string := ["included_proteins"; "excluded_proteins"].

(** [{k: v for k, v in data.items() if k not in [...]}] *)
Definition without_protein_lists (items : list (string * Json.t)) : list (string * Json.t) :=
  filter (fun kv => fst kv ∉ hidden_keys) items.

(** [detailed] is [None] when the query parameter is absent. *)
Definition get_run_summary (env : session) (detailed : option bool) : JSONResponse :=
  match summary_file env with
  | None =>
      mkJSONResponse (mkResponse "error" (RUN_SUMMARY_FILEPATH +:+ " File Not Found")
                                 (Some "File does not exist") None) 404
  | Some None => internal_server_error "json.load"
  | Some (Some loaded) =>
      let success d :=
        mkJSONResponse (mkResponse "success" "Run summary retrieved successfully." None (Some d)) 200 in
      if default false detailed then success loaded
      else
        match loaded with
        | Json.JDict items => success (Json.JDict (without_protein_lists items))
        | _ => internal_server_error "items"
        end
  end.

(** The decorator [check_kinfin_session] around an endpoint. *)
Definition check_kinfin_session (func : session -> JSONResponse) (env : session) : JSONResponse :=
  match session_dir env with
  | None | Some EmptyString =>
      mkJSONResponse (mkResponse "error" "Kinfin analysis not initialized"
                                 (Some "session_not_initialized") None) 428
  | Some _ =>
      match run_status env with
      | None =>
          mkJSONResponse (mkResponse "success" "Kinfin analysis not initialized"
                                     (Some "session_not_initialized") None) 428
      | Some st =>
          if bool_decide (st ∈ [Some "running"; Some "pending"])
          then mkJSONResponse
                 (mkResponse "success"
                    "Kinfin analysis is still running. Please wait for analysis to complete"
                    None (Some (Json.JDict [("is_complete", Json.JBool false)]))) 202
          else if bool_decide (st = Some "error")
          then mkJSONResponse     (* error=run_status, the status record itself *)
                 (mkResponse "error" "Some error occurred during Kinfin analysis."
                    (Some "run_status") None) 400
          else func env
      end
  end.

(** GET /kinfin/run-summary *)
Definition run_summary_endpoint (env : session) (detailed : option bool) : JSONResponse :=
  check_kinfin_session (fun env => get_run_summary env detailed) env.

End Api.

(** ** Reading one line of the cluster file *)

Definition fields_of (line : string) : list string := Py.split " " (Py.rstrip_nl line).
Definition line_cluster_id (line : string) : string := cluster_id_of (fields_of line).
Definition members (line : string) : list string := protein_ids_of (fields_of line).

Definition included_of (available_proteomes : list string) (line : string) : list string :=
  filter (fun pid => is_available available_proteomes pid) (members line).
Definition excluded_of (available_proteomes : list string) (line : string) : list string :=
  filter (fun pid => ¬ is_available available_proteomes pid) (members line).

(** The id resolves in the Protein Store. *)
Definition known (pc : ProteinCollection) (pid : string) : Prop :=
  is_Some (proteins_by_protein_id pc pid).

(** Every protein id the lines list under an available proteome resolves. *)
Definition members_known (available_proteomes : list string) (pc : ProteinCollection)
    (lines : list string) : Prop :=
  Forall (fun line => Forall (known pc) (included_of available_proteomes line)) lines.

Definition tally (d : list (string * nat)) (pids : list string) : list (string * nat) :=
  foldl (fun d pid => incr (proteome_of pid) d) d pids.

(** The cluster a line gives rise to, if any. *)
Definition retained (available_proteomes : list string) (line : string) : option Cluster :=
  match included_of available_proteomes line with
  | [] => None
  | inc => Some (mkCluster (line_cluster_id line) inc)
  end.

Definition audit_line (c : Cluster) : string := filtered_line (cluster_id c) (protein_ids c).

(** The tallies once a line has been read. *)
Definition stats_after_line (available_proteomes : list string) (line : string)
    (st : Stats) : Stats :=
  let inc := included_of available_proteomes line in
  let exc := excluded_of available_proteomes line in
  mkStats (S (total_clusters st))
          (total_proteins st + length (members line))
          (total_proteomes st)
          (filtered_clusters st + (if inc is [] then 0 else 1))
          (filtered_proteins st + length inc)
          (included_proteins st ++ inc)
          (excluded_proteins st ++ exc)
          (tally (included_proteomes st) inc)
          (tally (excluded_proteomes st) exc).

Definition stats_after (available_proteomes : list string) (lines : list string)
    (st : Stats) : Stats :=
  foldl (fun st line => stats_after_line available_proteomes line st) st lines.

(** The text made of the given pieces, one after the other. *)
Definition cat (pieces : list string) : string := foldr String.append "" pieces.

(** The characters of a string. *)
Definition chars (s : string) : list ascii := list_ascii_of_string s.

(** A line as a file holds it: [body] and the newline that ends it. *)
Definition terminated (body : string) : string := body +:+ String Py.nl "".

(** The text of a cluster's line in the audit file, newline apart. *)
Definition audit_body (c : Cluster) : string :=
  cluster_id c +:+ ": " +:+ Py.join ", " (Py.sort (protein_ids c)).


(** The singleton cluster of the [n]-th unclustered protein. *)
Definition singleton_cluster (n : nat) (protein : Protein) : Cluster :=
  mkCluster ("singleton_" +:+ pretty n) [protein_id protein].

(** The proteins no cluster of the file has claimed, in store order. *)
Definition unclustered (pc : ProteinCollection) : list Protein :=
  filter (fun p => clustered p = false) (proteins_list pc).

(** The string with every character replaced by its image. *)
Fixpoint map_chars (f : ascii -> ascii) (s : string) : string :=
  match s with
  | EmptyString => ""
  | String c s' => String (f c) (map_chars f s')
  end.

(** The substitution the id-mapping parser applies to a protein id. *)
Definition sanitize (c : ascii) : ascii :=
  if bool_decide (c ∈ [":"; ","; "("; ")"]%char) then "_"%char else c.

(** The proteins a line of the id mapping contributes, given its sequence
    id and the token that names the protein. *)
Definition contributed (proteome_id_by_species_id : gmap string string)
    (seq_id token : string) : list Protein :=
  match proteome_id_by_species_id !! species_of seq_id with
  | Some proteome =>
      if decide (proteome = "") then []
      else [new_Protein (map_chars sanitize token) proteome (species_of seq_id) seq_id]
  | None => []
  end.

(** A session whose analysis has finished: its directory and status file
    exist and the status is none of running, pending, error. *)
Definition completed (env : Api.session) : Prop :=
  (exists dir, Api.session_dir env = Some dir /\ dir ≠ "")
  /\ exists st, Api.run_status env = Some st
                /\ st ∉ [Some "running"; Some "pending"; Some "error"].

(** What one [;]-separated entry of a field stands for: a GO term with
    count 1, or an [id:count] pair. *)
Definition entry_pair (domain_source : string) (domain_id_count : string)
  : result (string * Z) :=
  if decide (domain_source = "GO") then Ok (domain_id_count, 1%Z)
  else
    match Py.rsplit_colon_2 domain_id_count with
    | [domain_id; domain_count_str] =>
        domain_count <- Py.int domain_count_str ;; Ok (domain_id, domain_count)
    | parts => Raise (ValueError (Unpack (length parts)))
    end.

(** The counter assignments [d[id] = count] build, made in order. *)
Definition counter_of (pairs : list (string * Z)) : gmap string Z :=
  list_to_map (reverse pairs).

(** Field [idx] of a data row speaks for [source]: it is not [None] and
    the header names [source] in that column. *)
Definition calls (sources temp : list string) (idx : nat) (field source : string) : Prop :=
  temp !! idx = Some field /\ field ≠ "None" /\ sources !! idx = Some source.

Definition demo_annotated : ProteinCollection :=
  with_domain_sources demo_proteins ["Pfam"; "GO"; "IPR"].

Definition demo_counters : gmap string (gmap string Z) :=
  <["Pfam" := <["PF1" := 2%Z]> (<["PF2" := 1%Z]> ∅)]> (<["IPR" := <["IPR1" := 3%Z]> ∅]> ∅).

(** ** Rows of the annotation table *)

(** A header row: its first token starts with [#]. *)
Definition is_header (line : string) : bool :=
  match Py.split_ws line with
  | t0 :: _ => Py.startswith "#" t0
  | [] => false
  end.

(** A data row: it has a first token, which does not start with [#]. *)
Definition is_data (line : string) : bool :=
  match Py.split_ws line with
  | t0 :: _ => negb (Py.startswith "#" t0)
  | [] => false
  end.

(** The sources a header row names. *)
Definition header_sources (line : string) : list string := tail (Py.split_ws line).

(** The list of domain sources once [lines] have been read, starting from
    [init]: that of the latest header row. *)
Definition sources_after (init : list string) (lines : list string) : list string :=
  foldl (fun cur line => if is_header line then header_sources line else cur) init lines.

(** The error of line 210. *)
Definition missing_header (functional_annotation_f : string) : exn :=
  ValueError (NoHeader (header_error_msg functional_annotation_f)).

(** A data row is well formed for the header [sources]: every field that
    is not [None] stands in a named column and each of its [;]-separated
    pieces is a GO term or an [id:count] pair with an integer count. *)
Definition row_well_formed (sources temp : list string) : Prop :=
  forall idx field,
    temp !! idx = Some field -> field ≠ "None" ->
    exists source,
      sources !! idx = Some source
      /\ Forall (fun e => exists pr, entry_pair source e = Ok pr) (Py.split ";" field).

(** ** Further notions for the cluster file *)

(** Every included protein id of the lines, in file order. *)
Definition all_included (available_proteomes : list string) (lines : list string)
  : list string :=
  lines ≫= included_of available_proteomes.



(** Every excluded protein id of the lines, in file order. *)
Definition all_excluded (available_proteomes : list string) (lines : list string)
  : list string :=
  lines ≫= excluded_of available_proteomes.

(** How many of the ids belong to proteome [q]. *)
Definition occurrences_of (q : string) (pids : list string) : nat :=
  length (filter (fun pid => proteome_of pid = q) pids).

(** The total a tally holds under key [q]. *)
Definition count_in (d : list (string * nat)) (q : string) : nat :=
  sum_list (filter (fun kv => kv.1 = q) d).*2.

(** [p] put in front of the first of the pieces. *)
Definition glue (p : string) (pieces : list string) : list string :=
  match pieces with
  | [] => [p]
  | q :: qs => (p +:+ q) :: qs
  end.

Definition demo_small_result : parsed :=
  mkParsed [mkCluster "OG1" ["B.1"; "A.2"]]
    (filtered_line "OG1" ["B.1"; "A.2"])
    (stats_after ["A"; "B"] ["OG1: B.1 A.2"] (initial_stats ["A"; "B"]))
    (Json.dump (Json.JDict (ordered_stats
       (stats_after ["A"; "B"] ["OG1: B.1 A.2"] (initial_stats ["A"; "B"])))))
    (with_proteins demo_proteins
       (alter set_clustered 1 (alter set_clustered 3 (proteins_list demo_proteins)))).


(** ** Further notions for the id mapping *)

(** [sep in s] *)
Definition contains (sep s : string) : Prop := exists a b, s = a +:+ sep +:+ b.

(** The proteins one line of the id mapping yields. *)
Definition line_proteins (proteome_id_by_species_id : gmap string string) (line : string)
  : list Protein :=
  match Py.split ": " line with
  | seq_id :: field :: _ =>
      contributed proteome_id_by_species_id seq_id (first (Py.split " " field))
  | _ => []
  end.

(** ** The status endpoint *)

(** GET /kinfin/status, inside the decorator: it is reached only for a
    finished analysis and says so. *)
Definition get_run_status (env : Api.session) : Api.JSONResponse :=
  Api.mkJSONResponse
    (Api.mkResponse "success" "Kinfin analysis is complete." None
       (Some (Json.JDict [("is_complete", Json.JBool true)]))) 200.

Definition run_status_endpoint (env : Api.session) : Api.JSONResponse :=
  Api.check_kinfin_session get_run_status env.

(** The analysis of the session is under way: its directory and status
    file exist and the status is running or pending. *)
Definition in_progress (env : Api.session) : Prop :=
  (exists dir, Api.session_dir env = Some dir /\ dir ≠ "")
  /\ exists st, Api.run_status env = Some st /\ st ∈ [Some "running"; Some "pending"].

Definition is_complete (b : bool) : option Json.t :=
  Some (Json.JDict [("is_complete", Json.JBool b)]).

(** ** Examples *)

Example split_colon_space : Py.split ": " "0_0: A.1 some: text" = ["0_0"; "A.1 some"; "text"].
Proof. reflexivity. Qed.
Example split_keeps_empty : Py.split " " "OG1:  A.1 " = ["OG1:"; ""; "A.1"; ""].
Proof. reflexivity. Qed.
Example split_empty : Py.split " " "" = [""].
Proof. reflexivity. Qed.
Example split_overlap : Py.split "aa" "aaa" = [""; "a"].
Proof. reflexivity. Qed.
Example split_ws_ex : Py.split_ws "  a  b c " = ["a"; "b"; "c"].
Proof. reflexivity. Qed.
Example rsplit_ex : Py.rsplit_colon_2 "a:b:c:3" = ["a:b"; "c"; "3"].
Proof. reflexivity. Qed.
Example rsplit_ex2 : Py.rsplit_colon_2 "PF1:3" = ["PF1"; "3"].
Proof. reflexivity. Qed.
Example readlines_ex : Py.readlines (String "a" (String Py.nl (String Py.nl (String "b" ""))))
  = [String "a" (String Py.nl ""); String Py.nl ""; "b"].
Proof. reflexivity. Qed.
Example rstrip_ex : Py.rstrip_nl (String "a" (String Py.nl (String "b" (String Py.nl (String Py.nl "")))))
  = String "a" (String Py.nl "b").
Proof. reflexivity. Qed.
Example int_ex : Py.int "-1_000" = Ok (-1000)%Z /\ Py.int "007" = Ok 7%Z /\ Py.int "1__0" = Raise (ValueError (IntLiteral "1__0")) /\ Py.int "" = Raise (ValueError (IntLiteral "")).
Proof. repeat split; reflexivity. Qed.
Example sort_ex : Py.sort ["B.1"; "A.2"; "A.10"; "A.1"] = ["A.1"; "A.10"; "A.2"; "B.1"].
Proof. vm_compute. reflexivity. Qed.

(** ** The result monad *)

Lemma for_each_app {A S} (body : A -> S -> result S) xs ys st :
  for_each body (xs ++ ys) st = (st' <- for_each body xs st ;; for_each body ys st').
Proof.
  revert st. induction xs as [|x xs IH]; intros st; simpl; [done|].
  destruct (body x st); simpl; auto.
Qed.

Lemma bind_Ok_inv {A B} (r : result A) (k : A -> result B) b :
  bind r k = Ok b -> exists a, r = Ok a /\ k a = Ok b.
Proof. destruct r; simpl; [eauto | discriminate]. Qed.

(** ** Strings *)

Lemma append_cons c s1 s2 : String c s1 +:+ s2 = String c (s1 +:+ s2).
Proof. reflexivity. Qed.

Lemma append_nil_r s : s +:+ "" = s.
Proof. induction s as [|c s IH]; [done | by rewrite append_cons, IH]. Qed.

Lemma append_assoc s1 s2 s3 : (s1 +:+ s2) +:+ s3 = s1 +:+ (s2 +:+ s3).
Proof. induction s1 as [|c s1 IH]; [done | by rewrite !append_cons, IH]. Qed.

Lemma cat_app xs ys : cat (xs ++ ys) = cat xs +:+ cat ys.
Proof.
  induction xs as [|x xs IH]; simpl; [done|].
  unfold cat in *. simpl. by rewrite IH, append_assoc.
Qed.

(** ** Characters, pieces and lines *)


Lemma cons_hd_nonempty c ps : Py.cons_hd c ps ≠ [].
Proof. by destruct ps. Qed.

Lemma split_go_nonempty sep k s : Py.split_go sep k s ≠ [].
Proof.
  revert k. induction s as [|c s IH]; intros k; simpl; [done|].
  destruct k; [|apply IH]. destruct (Py.startswith sep (String c s)); [done|].
  apply cons_hd_nonempty.
Qed.

Lemma cons_hd_elem c ps p :
  p ∈ Py.cons_hd c ps -> p = String c "" \/ (exists q, p = String c q /\ q ∈ ps) \/ p ∈ ps.
Proof.
  destruct ps as [|q ps]; simpl.
  - intros ->%list_elem_of_singleton. by left.
  - intros [->|Hp]%elem_of_cons; [right; left; exists q; split; [done|left] | right; right; by right].
Qed.



Lemma first_elem sep s : first (Py.split sep s) ∈ Py.split sep s.
Proof.
  unfold first, Py.split. pose proof (split_go_nonempty sep 0 s).
  destruct (Py.split_go sep 0 s); [done | left].
Qed.

Lemma replace_empty_chars old s c : c ∈ chars (Py.replace old "" s) -> c ∈ chars s.
Proof.
  induction s as [|a s IH]; simpl; [done|].
  destruct (decide (a = old)).
  - intros Hc. right. by apply IH.
  - intros [->|Hc]%elem_of_cons; [left | right; by apply IH].
Qed.

Lemma rstrip_nl_chars s c : c ∈ chars (Py.rstrip_nl s) -> c ∈ chars s.
Proof.
  induction s as [|a s IH]; simpl; [done|].
  destruct (Py.rstrip_nl s) as [|b r] eqn:Hr.
  - destruct (decide (a = Py.nl)); [by intros ?%elem_of_nil|].
    intros [->|Hc]%elem_of_cons; [left | by apply elem_of_nil in Hc].
  - intros [->|Hc]%elem_of_cons; [left | right; by apply IH].
Qed.


(** *** Lines of a file *)







(** ** What [split] returns *)

Lemma startswith_true p s : Py.startswith p s = true <-> exists r, s = p +:+ r.
Proof.
  revert s. induction p as [|a p IH]; intros s; simpl.
  - split; [eauto | done].
  - destruct s as [|b s].
    + split; [done | intros [r Hr]; discriminate].
    + destruct (decide (a = b)) as [->|Hab].
      * rewrite IH. split; intros [r Hr]; exists r.
        -- by rewrite append_cons, Hr.
        -- rewrite append_cons in Hr. by injection Hr.
      * split; [done|]. intros [r Hr]. rewrite append_cons in Hr. by injection Hr.
Qed.

Lemma split_go_skip sep pre r :
  Py.split_go sep (String.length pre) (pre +:+ r) = Py.split_go sep 0 r.
Proof.
  induction pre as [|c pre IH]; [done|]. rewrite append_cons. simpl. apply IH.
Qed.

Lemma split_at_sep a sep r :
  Py.split (String a sep) (String a sep +:+ r) = "" :: Py.split (String a sep) r.
Proof.
  unfold Py.split. rewrite append_cons.
  assert (Hs : Py.startswith (String a sep) (String a (sep +:+ r)) = true).
  { apply startswith_true. by exists r. }
  simpl in *. rewrite Hs. simpl. rewrite Nat.sub_0_r. by rewrite split_go_skip.
Qed.

(** The first piece runs up to the first separator, the other pieces are
    those of what follows it. *)
Lemma split_first sep s p ps :
  sep ≠ "" ->
  Py.split sep s = p :: ps ->
  (ps = [] /\ s = p) \/ (exists r, s = p +:+ sep +:+ r /\ ps = Py.split sep r).
Proof.
  intros Hsep. destruct sep as [|a sep]; [done|]. clear Hsep.
  revert p ps. induction s as [|c s IH]; intros p ps.
  - intros [= <- <-]. by left.
  - destruct (Py.startswith (String a sep) (String c s)) eqn:Hs.
    + apply startswith_true in Hs as [r Hr]. rewrite Hr, split_at_sep.
      intros [= <- <-]. right. by exists r.
    + unfold Py.split. simpl in *. rewrite Hs.
      fold (Py.split (String a sep) s).
      destruct (Py.split (String a sep) s) as [|q qs] eqn:Hq.
      { by apply split_go_nonempty in Hq. }
      simpl. intros [= <- <-].
      destruct (IH q qs eq_refl) as [[-> ->]|(r & -> & ->)]; [by left|].
      right. exists r. by rewrite append_cons.
Qed.

(** With a one-character separator the first piece holds no separator. *)
Lemma split_char_first c s p ps :
  Py.split (String c "") s = p :: ps -> c ∉ chars p.
Proof.
  revert p ps. induction s as [|a s IH]; intros p ps.
  - intros [= <- <-]. by intros ?%elem_of_nil.
  - unfold Py.split. simpl. destruct (decide (c = a)) as [->|Hca].
    + intros [= <- <-]. by intros ?%elem_of_nil.
    + fold (Py.split (String c "") s).
      destruct (Py.split (String c "") s) as [|q qs] eqn:Hq.
      { by apply split_go_nonempty in Hq. }
      simpl. intros [= <- <-]. intros [?|Hin]%elem_of_cons; [done|].
      by eapply IH.
Qed.

(** The first piece for a one-character separator: the text before the
    first occurrence, or all of it if there is none. *)
Lemma first_piece c s :
  (c ∉ chars (first (Py.split (String c "") s)))
  /\ (s = first (Py.split (String c "") s)
      \/ exists r, s = first (Py.split (String c "") s) +:+ String c "" +:+ r).
Proof.
  destruct (Py.split (String c "") s) as [|p ps] eqn:Hp.
  { by apply split_go_nonempty in Hp. }
  simpl. split; [by eapply split_char_first|].
  assert (Hne : String c "" ≠ "") by done.
  destruct (split_first _ _ _ _ Hne Hp) as [[_ ->]|(r & -> & _)]; eauto.
Qed.

(** ** The Protein Store under [mark_clustered] *)

Lemma set_clustered_id p : protein_id (set_clustered p) = protein_id p.
Proof. reflexivity. Qed.

Lemma find_by_ids pid (l l' : list Protein) :
  protein_id <$> l = protein_id <$> l' ->
  fst <$> list_find (fun p => protein_id p = pid) l
  = fst <$> list_find (fun p => protein_id p = pid) l'.
Proof.
  revert l'. induction l as [|p l IH]; intros [|p' l'] Hids; simplify_eq/=; [done|].
  rewrite H. destruct (decide (protein_id p' = pid)); [done|].
  specialize (IH l' H0).
  destruct (list_find _ l) as [[??]|], (list_find _ l') as [[??]|]; simplify_eq/=; done.
Qed.

Lemma resolve_by_ids pc pc' pid :
  protein_id <$> proteins_list pc' = protein_id <$> proteins_list pc ->
  proteins_by_protein_id pc' pid = proteins_by_protein_id pc pid.
Proof. apply find_by_ids. Qed.

Lemma known_by_ids pc pc' pid :
  protein_id <$> proteins_list pc' = protein_id <$> proteins_list pc ->
  known pc pid -> known pc' pid.
Proof. intros Hids. unfold known. by rewrite (resolve_by_ids pc pc' pid Hids). Qed.

Lemma alter_keeps_ids (g : Protein -> Protein) i (l : list Protein) :
  (forall p, protein_id (g p) = protein_id p) ->
  protein_id <$> alter g i l = protein_id <$> l.
Proof.
  intros Hg. revert i. induction l as [|p l IH]; intros [|i]; csimpl; try done.
  - by rewrite Hg.
  - by rewrite IH.
Qed.

Lemma mark_clustered_ids pid pc pc' :
  mark_clustered pid pc = Ok pc' ->
  protein_id <$> proteins_list pc' = protein_id <$> proteins_list pc.
Proof.
  unfold mark_clustered. destruct (proteins_by_protein_id pc pid) as [i|]; [|done].
  intros [= <-]. simpl. apply alter_keeps_ids, set_clustered_id.
Qed.

Lemma mark_all_ids pids pc pc' :
  for_each mark_clustered pids pc = Ok pc' ->
  protein_id <$> proteins_list pc' = protein_id <$> proteins_list pc.
Proof.
  revert pc. induction pids as [|pid pids IH]; intros pc; simpl.
  - by intros [= <-].
  - intros (pc1 & H1 & H2)%bind_Ok_inv.
    rewrite (IH _ H2). by eapply mark_clustered_ids.
Qed.


Lemma mark_all_returns pids pc :
  Forall (known pc) pids -> exists pc', for_each mark_clustered pids pc = Ok pc'.
Proof.
  revert pc. induction pids as [|pid pids IH]; intros pc Hk; simpl; [eauto|].
  inversion Hk as [|?? [i Hi] Hrest]; subst.
  unfold mark_clustered at 1. rewrite Hi. simpl.
  apply IH. eapply Forall_impl; [exact Hrest|]. intros x.
  apply known_by_ids. simpl. apply alter_keeps_ids, set_clustered_id.
Qed.

(** ** The loop over the cluster file *)

Section cluster_file.
Variable ap : list string.

Lemma classify_foldl pids filtered st :
  foldl (classify ap) (filtered, st) pids
  = (filtered ++ filter (fun pid => is_available ap pid) pids,
     mkStats (total_clusters st) (total_proteins st) (total_proteomes st)
             (filtered_clusters st) (filtered_proteins st)
             (included_proteins st ++ filter (fun pid => is_available ap pid) pids)
             (excluded_proteins st ++ filter (fun pid => ¬ is_available ap pid) pids)
             (tally (included_proteomes st) (filter (fun pid => is_available ap pid) pids))
             (tally (excluded_proteomes st) (filter (fun pid => ¬ is_available ap pid) pids))).
Proof.
  revert filtered st. induction pids as [|pid pids IH]; intros filtered st.
  - simpl. rewrite !app_nil_r. by destruct st.
  - simpl. destruct (is_available ap pid) eqn:Hav.
    + assert (Hp : is_available ap pid) by (by apply Is_true_true).
      rewrite IH. simpl.
      rewrite (filter_cons_True (fun pid => is_available ap pid) pid pids Hp).
      rewrite (filter_cons_False (fun pid => ¬ is_available ap pid) pid pids)
        by (intros H; by apply H).
      by rewrite <- !app_assoc.
    + assert (Hp : ¬ is_available ap pid) by (by apply Is_true_false).
      rewrite IH. simpl.
      rewrite (filter_cons_False (fun pid => is_available ap pid) pid pids Hp).
      rewrite (filter_cons_True (fun pid => ¬ is_available ap pid) pid pids Hp).
      by rewrite <- !app_assoc.
Qed.

Lemma process_line_post line s s' :
  process_line ap line s = Ok s' ->
  stats s' = stats_after_line ap line (stats s) /\
  match included_of ap line with
  | [] => cluster_list s' = cluster_list s /\ ofh s' = ofh s
          /\ proteinCollection s' = proteinCollection s
  | inc => cluster_list s' = cluster_list s ++ [mkCluster (line_cluster_id line) inc]
           /\ ofh s' = ofh s +:+ filtered_line (line_cluster_id line) inc
           /\ for_each mark_clustered inc (proteinCollection s) = Ok (proteinCollection s')
  end.
Proof.
  unfold process_line. rewrite classify_foldl. simpl.
  fold (fields_of line). fold (members line). fold (line_cluster_id line).
  fold (included_of ap line). fold (excluded_of ap line).
  unfold stats_after_line.
  destruct (included_of ap line) as [|pid inc] eqn:Hinc.
  - intros [= <-]. simpl. by rewrite !Nat.add_0_r.
  - intros (pc' & Hmark & [= <-])%bind_Ok_inv. simpl.
    by rewrite !Nat.add_1_r.
Qed.

Lemma process_line_returns line s :
  Forall (known (proteinCollection s)) (included_of ap line) ->
  exists s', process_line ap line s = Ok s'.
Proof.
  intros Hk. unfold process_line. rewrite classify_foldl. simpl.
  fold (fields_of line). fold (members line). fold (included_of ap line).
  destruct (included_of ap line) as [|pid inc] eqn:Hinc; [eauto|].
  destruct (mark_all_returns _ _ Hk) as [pc' ->]. simpl. eauto.
Qed.

Lemma run_post lines s s' :
  for_each (process_line ap) lines s = Ok s' ->
  stats s' = stats_after ap lines (stats s)
  /\ cluster_list s' = cluster_list s ++ omap (retained ap) lines
  /\ ofh s' = ofh s +:+ cat (audit_line <$> omap (retained ap) lines)
  /\ protein_id <$> proteins_list (proteinCollection s')
     = protein_id <$> proteins_list (proteinCollection s).
Proof.
  revert s. induction lines as [|line lines IH]; intros s.
  - intros [= <-]. simpl. by rewrite app_nil_r, append_nil_r.
  - simpl. intros (s1 & H1 & H2)%bind_Ok_inv.
    destruct (IH _ H2) as (-> & -> & -> & ->).
    destruct (process_line_post _ _ _ H1) as [-> Hrest].
    unfold retained, stats_after. simpl.
    destruct (included_of ap line) as [|pid inc] eqn:Hinc.
    + destruct Hrest as (-> & -> & ->). done.
    + destruct Hrest as (-> & -> & Hmark). simpl.
      rewrite <- app_assoc. unfold cat; simpl; fold (cat (audit_line <$> omap (retained ap) lines)).
      rewrite append_assoc. split_and!; try done.
      by apply mark_all_ids in Hmark.
Qed.

Lemma members_known_by_ids pc pc' lines :
  protein_id <$> proteins_list pc' = protein_id <$> proteins_list pc ->
  members_known ap pc lines -> members_known ap pc' lines.
Proof.
  intros Hids Hk. eapply Forall_impl; [exact Hk|]. intros line Hline. simpl in *.
  eapply Forall_impl; [exact Hline|]. intros pid. by apply known_by_ids.
Qed.

Lemma process_line_ids line s s' :
  process_line ap line s = Ok s' ->
  protein_id <$> proteins_list (proteinCollection s')
  = protein_id <$> proteins_list (proteinCollection s).
Proof.
  intros H1. destruct (process_line_post _ _ _ H1) as [_ Hrest].
  destruct (included_of ap line); [by destruct Hrest as (_ & _ & ->)|].
  destruct Hrest as (_ & _ & Hmark). by apply mark_all_ids in Hmark.
Qed.

Lemma run_returns lines s :
  members_known ap (proteinCollection s) lines ->
  exists s', for_each (process_line ap) lines s = Ok s'.
Proof.
  revert s. induction lines as [|line lines IH]; intros s Hk; simpl; [eauto|].
  inversion Hk as [|?? Hline Hlines]; subst.
  destruct (process_line_returns line s Hline) as [s1 H1]. rewrite H1. simpl.
  apply IH. eapply members_known_by_ids; [|exact Hlines].
  by eapply process_line_ids.
Qed.


(** The tallies of a whole run, field by field. *)
Lemma stats_after_fields lines st :
  total_clusters (stats_after ap lines st) = total_clusters st + length lines
  /\ total_proteins (stats_after ap lines st)
     = total_proteins st + length (lines ≫= members)
  /\ total_proteomes (stats_after ap lines st) = total_proteomes st
  /\ filtered_clusters (stats_after ap lines st)
     = filtered_clusters st + length (filter (fun line => included_of ap line ≠ []) lines)
  /\ filtered_proteins (stats_after ap lines st)
     = filtered_proteins st + length (lines ≫= included_of ap)
  /\ included_proteins (stats_after ap lines st)
     = included_proteins st ++ (lines ≫= included_of ap)
  /\ excluded_proteins (stats_after ap lines st)
     = excluded_proteins st ++ (lines ≫= excluded_of ap).
Proof.
  revert st. induction lines as [|line lines IH]; intros st.
  - simpl. rewrite !app_nil_r. repeat split; lia.
  - unfold stats_after. simpl. fold (stats_after ap lines (stats_after_line ap line st)).
    destruct (IH (stats_after_line ap line st)) as (-> & -> & -> & -> & -> & -> & ->).
    csimpl. rewrite !length_app, <- !app_assoc.
    destruct (included_of ap line) as [|pid inc] eqn:Hinc.
    + rewrite filter_cons_False by (intros H; by apply H). csimpl.
      split_and!; try done; lia.
    + rewrite filter_cons_True by (by rewrite Hinc). csimpl.
      split_and!; try done; lia.
Qed.

End cluster_file.

Lemma parse_cluster_file_post cluster_f pc ap r :
  parse_cluster_file cluster_f pc ap = Ok r ->
  exists s',
    for_each (process_line ap) (Py.readlines cluster_f)
             (mkLoop (initial_stats ap) [] "" pc) = Ok s'
    /\ r = mkParsed (cluster_list s') (ofh s') (stats s')
                    (Json.dump (Json.JDict (ordered_stats (stats s'))))
                    (proteinCollection s').
Proof.
  unfold parse_cluster_file. intros (s' & Hrun & [= <-])%bind_Ok_inv. eauto.
Qed.

Lemma parse_cluster_file_returns cluster_f pc ap :
  members_known ap pc (Py.readlines cluster_f) ->
  exists r, parse_cluster_file cluster_f pc ap = Ok r.
Proof.
  intros Hk. unfold parse_cluster_file.
  destruct (run_returns ap (Py.readlines cluster_f) (mkLoop (initial_stats ap) [] "" pc) Hk)
    as [s' ->].
  simpl. eauto.
Qed.


Example unknown_member_raises :
  parse_cluster_file "OG1: A.9" demo_proteins ["A"] = Raise (KeyError "A.9").
Proof. reflexivity. Qed.

(** ** C1 *)



Lemma demo_members_known :
  members_known ["A"; "B"] demo_proteins (Py.readlines demo_cluster_f).
Proof. repeat constructor; by eexists. Defined.



Example retained_demo :
  omap (retained ["A"; "B"]) (Py.readlines demo_cluster_f)
  = [mkCluster "OG1" ["B.1"; "A.2"; "A.1"]; mkCluster "OG3" ["A.3"]].
Proof. vm_compute. reflexivity. Qed.

(** ** C2 *)



(** ** C3 *)

Lemma bind_included_of ap lines :
  lines ≫= included_of ap = filter (fun pid => is_available ap pid) (lines ≫= members).
Proof.
  induction lines as [|l ls IH]; [done|].
  rewrite !bind_cons, filter_app, IH. reflexivity.
Qed.

Lemma bind_excluded_of ap lines :
  lines ≫= excluded_of ap = filter (fun pid => ¬ is_available ap pid) (lines ≫= members).
Proof.
  induction lines as [|l ls IH]; [done|].
  rewrite !bind_cons, filter_app, IH. reflexivity.
Qed.



(** ** C8 *)

Lemma audit_line_terminated c : audit_line c = terminated (audit_body c).
Proof.
  unfold audit_line, filtered_line, terminated, audit_body.
  by rewrite !append_assoc.
Qed.


Lemma sort_perm ids : Py.sort ids ≡ₚ ids.
Proof. apply (merge_sort_Permutation String.le). Qed.







Example filtered_file_demo :
  filtered_txt <$> (match parse_cluster_file demo_cluster_f demo_proteins ["A"; "B"] with
                    | Ok r => Some r | Raise _ => None end)
  = Some (terminated "OG1: A.1, A.2, B.1" +:+ terminated "OG3: A.3").
Proof. vm_compute. reflexivity. Qed.

(** ** C9 *)







(** ** C4 *)

Lemma singleton_loop proteins cluster_list k :
  foldl singleton_step (cluster_list, k) proteins
  = (cluster_list
       ++ imap (fun n => singleton_cluster (k + n)) (filter (fun p => clustered p = false) proteins),
     k + length (filter (fun p => clustered p = false) proteins)).
Proof.
  revert cluster_list k. induction proteins as [|p ps IH]; intros cl k; simpl.
  - by rewrite app_nil_r, Nat.add_0_r.
  - destruct (clustered p) eqn:Hc.
    + rewrite filter_cons_False by (by rewrite Hc). apply IH.
    + rewrite filter_cons_True by done. rewrite IH. simpl.
      rewrite <- app_assoc, Nat.add_0_r. simpl. f_equal; [|lia].
      f_equal. f_equal. apply imap_ext. intros n q _. simpl. f_equal. lia.
Qed.

Example singletons_demo :
  get_singletons
    (mkProteinCollection
       [ new_Protein "A.1" "A" "0" "0_0"; set_clustered (new_Protein "A.2" "A" "0" "0_1");
         new_Protein "B.1" "B" "1" "1_0" ] [] false false)
    [mkCluster "OG1" ["A.2"]]
  = ([mkCluster "OG1" ["A.2"]; mkCluster "singleton_0" ["A.1"]; mkCluster "singleton_1" ["B.1"]], 2).
Proof. vm_compute. reflexivity. Qed.

(** C4: [get_singletons] gives every protein whose [clustered] flag is
    [False] one new cluster, [singleton_<n>], holding that protein alone,
    with n = 0, 1, 2, ... in the order of [proteins_list]; the clusters are
    appended to the given list and their number is returned.  The ids are
    pairwise distinct and depend on the protein collection alone; and
    [build_ClusterCollection] runs it on what [parse_cluster_file] left
    exactly when [infer_singletons] is set. *)
Theorem get_singletons_numbers_unclustered (pc : ProteinCollection) (cluster_list : list Cluster) :
  get_singletons pc cluster_list
  = (cluster_list ++ imap singleton_cluster (unclustered pc), length (unclustered pc))
  /\ (forall n p, unclustered pc !! n = Some p ->
        (get_singletons pc cluster_list).1 !! (length cluster_list + n)
        = Some (mkCluster ("singleton_" +:+ pretty n) [protein_id p]))
  /\ (forall m n p q,
        cluster_id (singleton_cluster m p) = cluster_id (singleton_cluster n q) -> m = n)
  /\ (forall other,
        drop (length other) (get_singletons pc other).1
        = drop (length cluster_list) (get_singletons pc cluster_list).1)
  /\ (forall cluster_f ap r,
        parse_cluster_file cluster_f pc ap = Ok r ->
        build_ClusterCollection cluster_f pc true ap
        = Ok (get_singletons (proteins_after r) (returned r))
        /\ build_ClusterCollection cluster_f pc false ap = Ok (returned r, 0)).
Proof.
  assert (Hgs : forall cl, get_singletons pc cl
                = (cl ++ imap singleton_cluster (unclustered pc), length (unclustered pc))).
  { intros cl. unfold get_singletons. rewrite singleton_loop. done. }
  split_and!.
  - apply Hgs.
  - intros n p Hn. rewrite Hgs. simpl.
    rewrite lookup_app_r by lia. replace (length cluster_list + n - length cluster_list) with n by lia.
    rewrite list_lookup_imap, Hn. done.
  - intros m n p q Heq. simpl in Heq.
    apply (inj (String.append "singleton_")) in Heq. by apply (inj pretty) in Heq.
  - intros other. rewrite !Hgs. simpl. by rewrite !drop_app_length.
  - intros cluster_f ap r Hr. unfold build_ClusterCollection. by rewrite Hr.
Qed.

Lemma get_singletons_numbers_unclustered_witness :
  exists r,
    parse_cluster_file demo_cluster_f demo_proteins ["A"; "B"] = Ok r
    /\ build_ClusterCollection demo_cluster_f demo_proteins true ["A"; "B"]
       = Ok (get_singletons (proteins_after r) (returned r)).
Proof.
  destruct (parse_cluster_file_returns _ _ _ demo_members_known) as [r Hr].
  exists r. split; [exact Hr|].
  exact (proj1 (proj2 (proj2 (proj2 (proj2
           (get_singletons_numbers_unclustered demo_proteins [])))) demo_cluster_f ["A"; "B"] r Hr)).
Defined.

(** ** C5 *)

Lemma replace_char_map old new s :
  Py.replace old (String new "") s
  = map_chars (fun c => if decide (c = old) then new else c) s.
Proof.
  induction s as [|c s IH]; simpl; [done|].
  destruct (decide (c = old)); by rewrite IH.
Qed.

Lemma map_chars_compose f g s : map_chars f (map_chars g s) = map_chars (f ∘ g) s.
Proof. induction s as [|c s IH]; simpl; [done | by rewrite IH]. Qed.

Lemma map_chars_ext f g s : (forall c, f c = g c) -> map_chars f s = map_chars g s.
Proof. intros Hfg. induction s as [|c s IH]; simpl; [done | by rewrite IH, Hfg]. Qed.

Lemma chars_map_chars f s : chars (map_chars f s) = f <$> chars s.
Proof. induction s as [|c s IH]; simpl; [done | by rewrite IH]. Qed.

(** The four replacements in a row are one substitution, character by
    character. *)
Lemma protein_id_of_field_sanitize field :
  protein_id_of_field field = map_chars sanitize (first (Py.split " " field)).
Proof.
  unfold protein_id_of_field.
  change "_" with (String "_"%char ""). rewrite !replace_char_map, !map_chars_compose.
  apply map_chars_ext. intros c. unfold sanitize. simpl.
  destruct (decide (c = ":"%char)) as [->|?]; [done|].
  destruct (decide (c = ","%char)) as [->|?]; [done|].
  destruct (decide (c = "("%char)) as [->|?]; [done|].
  destruct (decide (c = ")"%char)) as [->|?]; [done|].
  rewrite bool_decide_eq_false_2; [done|].
  intros Hin. repeat (apply elem_of_cons in Hin as [?|Hin]; [done|]). by apply elem_of_nil in Hin.
Qed.

Example seq_line_demo :
  get_protein_list_from_seq_f
    ["0_0: A.1 desc: more"; "1_0: B(1):x,y rest"; "9_0: Z.1"]
    (<["0" := "A"]> (<["1" := "B"]> ∅))
  = Ok [new_Protein "A.1" "A" "0" "0_0"; new_Protein "B_1__x_y" "B" "1" "1_0"].
Proof. vm_compute. reflexivity. Qed.

Example seq_line_malformed :
  get_protein_list_from_seq_f ["0_0 A.1"] (<["0" := "A"]> ∅) = Raise IndexError.
Proof. vm_compute. reflexivity. Qed.



(** ** C6 *)

Lemma split_char_none c s : c ∉ chars s -> Py.split (String c "") s = [s].
Proof.
  induction s as [|a s IH]; intros Hc; [done|].
  unfold Py.split. simpl. destruct (decide (c = a)) as [->|Hca].
  - exfalso. apply Hc. left.
  - fold (Py.split (String c "") s). rewrite IH; [done|]. intros ?. apply Hc. by right.
Qed.

Lemma split_char_app c p r :
  c ∉ chars p ->
  Py.split (String c "") (p +:+ String c "" +:+ r) = p :: Py.split (String c "") r.
Proof.
  induction p as [|a p IH]; intros Hc.
  - unfold Py.split. simpl. by destruct (decide (c = c)).
  - rewrite append_cons. unfold Py.split. simpl. destruct (decide (c = a)) as [->|Hca].
    + exfalso. apply Hc. left.
    + fold (Py.split (String c "") (p +:+ String c "" +:+ r)).
      rewrite IH; [done|]. intros ?. apply Hc. by right.
Qed.

Lemma rsplit_id_count id cnt :
  ":"%char ∉ chars id -> ":"%char ∉ chars cnt ->
  Py.rsplit_colon_2 (id +:+ ":" +:+ cnt) = [id; cnt].
Proof.
  intros Hid Hcnt. unfold Py.rsplit_colon_2.
  change ":" with (String ":"%char ""). rewrite split_char_app, split_char_none by done.
  done.
Qed.

Lemma count_entry_pair source e m m' :
  count_entry source e m = Ok m' ->
  exists pr, entry_pair source e = Ok pr /\ m' = <[pr.1 := pr.2]> m.
Proof.
  unfold count_entry, entry_pair. destruct (decide (source = "GO")).
  - intros [= <-]. by eexists.
  - destruct (Py.rsplit_colon_2 e) as [|id [|cnt [|??]]]; try done.
    destruct (Py.int cnt) as [z|]; [|done]. simpl. intros [= <-]. by eexists.
Qed.

Lemma counts_post source entries counter :
  for_each (count_entry source) entries ∅ = Ok counter ->
  exists pairs,
    Forall2 (fun e pr => entry_pair source e = Ok pr) entries pairs
    /\ counter = counter_of pairs.
Proof.
  revert counter. induction entries as [|e entries IH] using rev_ind; intros counter.
  - intros [= <-]. exists []. split; [constructor | done].
  - rewrite for_each_app. intros (m & Hm & He)%bind_Ok_inv. simpl in He.
    destruct (count_entry source e m) as [m'|] eqn:Hce; [|done].
    simpl in He. injection He as <-.
    destruct (IH _ Hm) as (pairs & Hpairs & ->).
    apply count_entry_pair in Hce as (pr & Hpr & ->).
    exists (pairs ++ [pr]). split.
    + apply Forall2_app; [done|]. by constructor.
    + unfold counter_of. rewrite reverse_snoc. by destruct pr.
Qed.

Lemma counter_of_lookup pairs id n :
  counter_of pairs !! id = Some n -> (id, n) ∈ pairs.
Proof.
  unfold counter_of. intros H%elem_of_list_to_map_2. by apply elem_of_reverse.
Qed.

Lemma counter_of_keys pairs id :
  is_Some (counter_of pairs !! id) <-> id ∈ pairs.*1.
Proof.
  unfold counter_of. rewrite <- not_eq_None_Some, <- not_elem_of_list_to_map.
  rewrite fmap_reverse, elem_of_reverse.
  destruct (decide (id ∈ pairs.*1)); naive_solver.
Qed.

Lemma counter_of_NoDup pairs id n :
  NoDup pairs.*1 -> (id, n) ∈ pairs -> counter_of pairs !! id = Some n.
Proof.
  intros Hnd Hin. unfold counter_of. apply elem_of_list_to_map_1.
  - by rewrite fmap_reverse, reverse_Permutation.
  - by apply elem_of_reverse.
Qed.

(** The counters of a row: every source some field speaks for is a key,
    bound to the counter of the last such field, and no other source is. *)
Lemma row_counters_post sources temp d :
  row_counters sources temp = Ok d ->
  forall source,
    match d !! source with
    | None => forall idx field, ¬ calls sources temp idx field source
    | Some counter =>
        exists idx field pairs,
          calls sources temp idx field source
          /\ (forall idx' field', idx < idx' -> ¬ calls sources temp idx' field' source)
          /\ Forall2 (fun e pr => entry_pair source e = Ok pr) (Py.split ";" field) pairs
          /\ counter = counter_of pairs
    end.
Proof.
  unfold row_counters. revert d.
  induction temp as [|x temp IH] using rev_ind; intros d.
  - intros [= <-] source. rewrite lookup_empty. intros idx field [Hl _]. done.
  - rewrite imap_app, for_each_app. simpl.
    intros (d' & Hd' & Hx)%bind_Ok_inv.
    specialize (IH d' Hd'). rewrite Nat.add_0_r in Hx.
    assert (Hold : forall idx field source,
               calls sources temp idx field source ->
               calls sources (temp ++ [x]) idx field source).
    { intros idx field source (Hl & ? & ?). split; [|done].
      rewrite lookup_app_l; [done | by eapply lookup_lt_Some]. }
    assert (Hnew : forall idx field source,
               calls sources (temp ++ [x]) idx field source ->
               calls sources temp idx field source
               \/ (idx = length temp /\ field = x /\ x ≠ "None"
                   /\ sources !! length temp = Some source)).
    { intros idx field source (Hl & Hf & Hs).
      apply lookup_snoc_Some in Hl as [[Hlt Hl]|[-> ->]]; [left | right]; done. }
    destruct (decide (x = "None")) as [->|Hx_not].
    + simpl in Hx. injection Hx as <-. intros source. specialize (IH source).
      destruct (d' !! source) as [counter|].
      * destruct IH as (idx & field & pairs & Hc & Hlast & Hp & ->).
        exists idx, field, pairs. split_and!; [by apply Hold | | done..].
        intros idx' field' Hlt [Hc'|(_ & _ & ? & _)]%Hnew; [by eapply Hlast | done].
      * intros idx field [Hc'|(_ & _ & ? & _)]%Hnew; [by eapply IH | done].
    + unfold field_entry in Hx. destruct (decide (x = "None")); [done|].
      destruct (sources !! length temp) as [src|] eqn:Hsrc; [|done].
      destruct (for_each (count_entry src) (Py.split ";" x) ∅) as [counter|] eqn:Hcounter;
        [|done].
      simpl in Hx. injection Hx as <-.
      apply counts_post in Hcounter as (pairs & Hpairs & ->).
      intros source. destruct (decide (src = source)) as [<-|Hne].
      * rewrite lookup_insert_eq. exists (length temp), x, pairs. split_and!; try done.
        -- split_and!; [apply list_lookup_middle | |]; done.
        -- intros idx' field' Hlt (Hl & _). apply lookup_lt_Some in Hl.
           rewrite length_app in Hl. simpl in Hl. lia.
      * rewrite lookup_insert_ne by done. specialize (IH source).
        destruct (d' !! source) as [counter|].
        -- destruct IH as (idx & field & pairs' & Hc & Hlast & Hp & ->).
           exists idx, field, pairs'. split_and!; [by apply Hold | | done..].
           intros idx' field' Hlt [Hc'|(_ & _ & _ & ?)]%Hnew; [by eapply Hlast | congruence].
        -- intros idx field [Hc'|(_ & _ & _ & ?)]%Hnew; [by eapply IH | congruence].
Qed.

Lemma count_entry_returns source e m pr :
  entry_pair source e = Ok pr -> count_entry source e m = Ok (<[pr.1 := pr.2]> m).
Proof.
  unfold count_entry, entry_pair. destruct (decide (source = "GO")).
  - by intros [= <-].
  - destruct (Py.rsplit_colon_2 e) as [|id [|cnt [|??]]]; try done.
    destruct (Py.int cnt) as [z|]; [|done]. simpl. by intros [= <-].
Qed.

Lemma counts_returns source entries m :
  Forall (fun e => exists pr, entry_pair source e = Ok pr) entries ->
  exists counter, for_each (count_entry source) entries m = Ok counter.
Proof.
  intros Hall. revert m. induction Hall as [|e entries [pr Hpr] _ IH]; intros m; simpl.
  - eauto.
  - rewrite (count_entry_returns _ _ _ _ Hpr). simpl. apply IH.
Qed.

(** A well-formed data row parses. *)
Lemma row_counters_returns sources temp :
  row_well_formed sources temp -> exists d, row_counters sources temp = Ok d.
Proof.
  unfold row_counters.
  induction temp as [|x temp IH] using rev_ind; intros Hwf; [by eexists|].
  rewrite imap_app, for_each_app. simpl. rewrite Nat.add_0_r.
  destruct IH as [d' ->].
  { intros idx field Hl. apply Hwf. rewrite lookup_app_l; [done|].
    by eapply lookup_lt_Some. }
  simpl. destruct (decide (x = "None")) as [->|Hx]; [by eexists|].
  destruct (Hwf (length temp) x (list_lookup_middle _ _ _ _ eq_refl) Hx)
    as (source & -> & Hentries).
  destruct (counts_returns source _ ∅ Hentries) as [counter ->]. simpl. by eexists.
Qed.

Example well_formed_demo :
  row_well_formed ["Pfam"; "GO"; "IPR"] ["PF1:2;PF2:1"; "None"; "IPR1:3"].
Proof.
  intros [|[|[|idx]]] field; simpl; intros [= <-] Hne; try done.
  - exists "Pfam". split; [done|]. repeat constructor; by eexists.
  - exists "IPR". split; [done|]. repeat constructor; by eexists.
Qed.

Lemma list_find_id pid (l : list Protein) i :
  fst <$> list_find (fun p => protein_id p = pid) l = Some i ->
  exists p, l !! i = Some p /\ protein_id p = pid.
Proof.
  destruct (list_find _ l) as [[j p]|] eqn:Hfind; [|done].
  intros [= <-]. apply list_find_Some in Hfind as (Hl & Hp & _). eauto.
Qed.

Lemma annotation_row_data f line pc t0 temp d i :
  Py.split_ws line = t0 :: temp ->
  Py.startswith "#" t0 = false ->
  domain_sources pc ≠ [] ->
  row_counters (domain_sources pc) temp = Ok d ->
  proteins_by_protein_id pc t0 = Some i ->
  exists pc' p',
    annotation_row f line pc = Ok pc'
    /\ proteins_list pc' !! i = Some p'
    /\ protein_id p' = t0
    /\ domain_counter_by_domain_source p' = d.
Proof.
  intros Hsplit Hhash Hsrc Hd Hi. unfold annotation_row. rewrite Hsplit, Hhash.
  destruct (domain_sources pc) as [|s0 srcs] eqn:Hs; [done|]. rewrite Hd. simpl.
  unfold add_annotation_to_protein. rewrite Hi.
  destruct (list_find_id _ _ _ Hi) as (p & Hp & Hid).
  eexists _, (set_annotation d [] p). split; [done|]. simpl.
  rewrite list_lookup_alter_eq, Hp. done.
Qed.

Example annotation_demo :
  row_counters ["Pfam"; "GO"; "IPR"] ["PF1:2;PF2:1"; "None"; "IPR1:3"] = Ok demo_counters
  /\ demo_counters !! "GO" = None.
Proof. split; vm_compute; reflexivity. Qed.

Example annotation_go_demo :
  row_counters ["Pfam"; "GO"] ["None"; "GO:0005515;GO:0003677"]
  = Ok (<["GO" := <["GO:0005515" := 1%Z]> (<["GO:0003677" := 1%Z]> ∅)]> ∅).
Proof. vm_compute. reflexivity. Qed.

(** C6: in a data row of the annotation table a field [None] contributes
    nothing: a source is a key of the protein's per-source counters exactly
    when some field that is not [None] stands in its column, so a source
    whose field is [None] is absent, not present with a zero count.  A
    source that is present is bound to the counter of its (last) field:
    one entry per [;]-separated piece, a GO term with count 1, or the id
    and the parsed integer of an [id:count] pair. *)
Theorem annotation_row_counters (f line : string) (pc : ProteinCollection)
    (t0 : string) (temp : list string) (d : gmap string (gmap string Z)) :
  Py.split_ws line = t0 :: temp ->
  Py.startswith "#" t0 = false ->
  domain_sources pc ≠ [] ->
  row_counters (domain_sources pc) temp = Ok d ->
  let sources := domain_sources pc in
  (forall source,
     d !! source = None <-> forall idx field, ¬ calls sources temp idx field source)
  /\ (forall source counter,
        d !! source = Some counter ->
        exists idx field pairs,
          calls sources temp idx field source
          /\ (forall idx' field', idx < idx' -> ¬ calls sources temp idx' field' source)
          /\ Forall2 (fun e pr => entry_pair source e = Ok pr) (Py.split ";" field) pairs
          /\ counter = counter_of pairs
          /\ (forall id n, counter !! id = Some n -> (id, n) ∈ pairs)
          /\ (forall id, id ∈ pairs.*1 -> is_Some (counter !! id))
          /\ (NoDup pairs.*1 -> forall id n, (id, n) ∈ pairs -> counter !! id = Some n))
  /\ (forall term, entry_pair "GO" term = Ok (term, 1%Z))
  /\ (forall source id cnt n,
        source ≠ "GO" -> ":"%char ∉ chars id -> ":"%char ∉ chars cnt ->
        Py.int cnt = Ok n ->
        entry_pair source (id +:+ ":" +:+ cnt) = Ok (id, n))
  /\ (forall i,
        proteins_by_protein_id pc t0 = Some i ->
        exists pc' p',
          annotation_row f line pc = Ok pc'
          /\ proteins_list pc' !! i = Some p'
          /\ protein_id p' = t0
          /\ domain_counter_by_domain_source p' = d).
Proof.
  intros Hsplit Hhash Hsrc Hd sources. pose proof (row_counters_post _ _ _ Hd) as Hpost.
  split_and!.
  - intros source. specialize (Hpost source). split.
    + intros Hnone. by rewrite Hnone in Hpost.
    + intros Hno. destruct (d !! source) as [counter|]; [|done].
      destruct Hpost as (idx & field & _ & Hc & _). by apply Hno in Hc.
  - intros source counter Hsome. specialize (Hpost source). rewrite Hsome in Hpost.
    destruct Hpost as (idx & field & pairs & Hc & Hlast & Hp & ->).
    exists idx, field, pairs. split_and!; try done.
    + apply counter_of_lookup.
    + intros id. apply counter_of_keys.
    + intros Hnd id n. by apply counter_of_NoDup.
  - intros term. done.
  - intros source id cnt n Hgo Hid Hcnt Hint. unfold entry_pair.
    destruct (decide (source = "GO")); [done|].
    rewrite rsplit_id_count by done. by rewrite Hint.
  - intros i Hi. by eapply annotation_row_data.
Qed.

Lemma annotation_row_counters_witness :
  exists pc' p',
    annotation_row "annotation.txt" "A.1 PF1:2;PF2:1 None IPR1:3" demo_annotated = Ok pc'
    /\ proteins_list pc' !! 0 = Some p'
    /\ protein_id p' = "A.1"
    /\ domain_counter_by_domain_source p' = demo_counters.
Proof.
  assert (Hd : row_counters (domain_sources demo_annotated) ["PF1:2;PF2:1"; "None"; "IPR1:3"]
               = Ok demo_counters) by (vm_compute; reflexivity).
  assert (Hsrc : domain_sources demo_annotated ≠ []) by done.
  exact (proj2 (proj2 (proj2 (proj2
    (annotation_row_counters "annotation.txt" "A.1 PF1:2;PF2:1 None IPR1:3" demo_annotated
       "A.1" ["PF1:2;PF2:1"; "None"; "IPR1:3"] demo_counters eq_refl eq_refl Hsrc Hd)))) 0 eq_refl).
Defined.

(** ** C7 *)

Lemma for_each_raise {A S} (body : A -> S -> result S) xs st e :
  for_each body xs st = Raise e -> exists x st', x ∈ xs /\ body x st' = Raise e.
Proof.
  revert st. induction xs as [|x xs IH]; intros st; simpl; [done|].
  destruct (body x st) as [st1|e1] eqn:Hx; simpl.
  - intros (y & st' & Hy & Hr)%IH. exists y, st'. split; [by right | done].
  - intros [= ->]. exists x, st. split; [left | done].
Qed.

Lemma int_raise s e : Py.int s = Raise e -> e = ValueError (IntLiteral s).
Proof. unfold Py.int. by destruct (match s with "" => _ | _ => _ end); intros [= <-]. Qed.

Lemma count_entry_raise source e m x msg :
  count_entry source e m = Raise x -> x ≠ ValueError (NoHeader msg).
Proof.
  unfold count_entry. destruct (decide (source = "GO")); [done|].
  destruct (Py.rsplit_colon_2 e) as [|id [|cnt [|??]]]; try by intros [= <-].
  destruct (Py.int cnt) as [z|x'] eqn:Hint; [done|]. simpl. intros [= <-].
  by apply int_raise in Hint as ->.
Qed.

Lemma row_counters_raise sources temp x msg :
  row_counters sources temp = Raise x -> x ≠ ValueError (NoHeader msg).
Proof.
  unfold row_counters. intros ([idx field] & acc & _ & Hraise)%for_each_raise.
  unfold field_entry in Hraise. destruct (decide (field = "None")); [done|].
  destruct (sources !! idx) as [src|]; [|by injection Hraise as <-].
  destruct (for_each (count_entry src) (Py.split ";" field) ∅) as [c|x'] eqn:Hc; [done|].
  simpl in Hraise. injection Hraise as <-.
  apply for_each_raise in Hc as (e & m & _ & Hc). by eapply count_entry_raise.
Qed.

(** One row raises the missing-header error exactly when it is a data row
    met while no source is known. *)
Lemma annotation_row_missing_header f line pc msg :
  annotation_row f line pc = Raise (ValueError (NoHeader msg))
  <-> is_data line = true /\ domain_sources pc = [] /\ msg = header_error_msg f.
Proof.
  unfold annotation_row, is_data. destruct (Py.split_ws line) as [|t0 temp].
  { split; [done | by intros [? _]]. }
  destruct (Py.startswith "#" t0); simpl.
  { split; [done | by intros [? _]]. }
  destruct (domain_sources pc) as [|s0 srcs].
  - split; [by intros [= <-] | by intros (_ & _ & ->)].
  - split; [|by intros (_ & ? & _)].
    destruct (row_counters (s0 :: srcs) temp) as [d|x] eqn:Hd; [done|].
    simpl. intros [= ->]. by eapply row_counters_raise in Hd.
Qed.

Lemma add_annotation_sources pc pid d go :
  domain_sources (add_annotation_to_protein pc pid d go) = domain_sources pc.
Proof. unfold add_annotation_to_protein. by destruct (proteins_by_protein_id pc pid). Qed.

Lemma annotation_row_sources f line pc pc' :
  annotation_row f line pc = Ok pc' ->
  domain_sources pc' = if is_header line then header_sources line else domain_sources pc.
Proof.
  unfold annotation_row, is_header, header_sources.
  destruct (Py.split_ws line) as [|t0 temp]; [done|].
  destruct (Py.startswith "#" t0); simpl; [by intros [= <-]|].
  destruct (domain_sources pc) as [|s0 srcs] eqn:Hs; [done|].
  destruct (row_counters (s0 :: srcs) temp) as [d|]; [|done].
  simpl. intros [= <-]. by rewrite add_annotation_sources.
Qed.

Lemma annotation_rows_missing_header f lines pc msg :
  for_each (annotation_row f) lines pc = Raise (ValueError (NoHeader msg))
  <-> exists before row after,
        lines = before ++ row :: after
        /\ is_data row = true
        /\ (exists pc', for_each (annotation_row f) before pc = Ok pc')
        /\ sources_after (domain_sources pc) before = []
        /\ msg = header_error_msg f.
Proof.
  revert pc. induction lines as [|line lines IH]; intros pc.
  - split; [done|]. intros (before & row & after & Heq & _). by destruct before.
  - simpl. destruct (annotation_row f line pc) as [pc1|x] eqn:Hrow; simpl.
    + rewrite IH. split.
      * intros (before & row & after & -> & Hdata & Hok & Hsrc & ->).
        exists (line :: before), row, after. split_and!; try done.
        -- simpl. by rewrite Hrow.
        -- simpl. by rewrite <- (annotation_row_sources _ _ _ _ Hrow).
      * intros (before & row & after & Heq & Hdata & [pc' Hok] & Hsrc & ->).
        destruct before as [|l before]; simpl in *; injection Heq as -> ->.
        { assert (Hbad : annotation_row f row pc
                         = Raise (ValueError (NoHeader (header_error_msg f)))).
          { by apply annotation_row_missing_header. }
          by rewrite Hrow in Hbad. }
        rewrite Hrow in Hok. simpl in Hok.
        exists before, row, after. split_and!; eauto.
        by rewrite (annotation_row_sources _ _ _ _ Hrow).
    + split.
      * intros [= ->]. apply annotation_row_missing_header in Hrow as (Hdata & Hsrc & ->).
        exists [], line, lines. split_and!; eauto.
      * intros (before & row & after & Heq & Hdata & [pc' Hok] & Hsrc & ->).
        destruct before as [|l before]; simpl in *; injection Heq as -> ->.
        -- assert (Hbad : annotation_row f row pc
                          = Raise (ValueError (NoHeader (header_error_msg f)))).
           { by apply annotation_row_missing_header. }
           rewrite Hrow in Hbad. by injection Hbad as ->.
        -- by rewrite Hrow in Hok.
Qed.

Lemma sources_after_named init lines :
  init ≠ [] ->
  Forall (fun line => is_header line = true -> header_sources line ≠ []) lines ->
  sources_after init lines ≠ [].
Proof.
  intros Hinit Hall. revert init Hinit.
  induction Hall as [|line lines Hline _ IH]; intros init Hinit; simpl; [done|].
  apply IH. destruct (is_header line); [by apply Hline | done].
Qed.

Lemma header_not_data line : is_header line = true -> is_data line = false.
Proof.
  unfold is_header, is_data. destruct (Py.split_ws line); [done|]. by intros ->.
Qed.

Lemma parse_domains_raise f lines pc e :
  parse_domains_from_functional_annotations_file f lines pc = Raise e
  <-> for_each (annotation_row f) lines pc = Raise e.
Proof.
  unfold parse_domains_from_functional_annotations_file.
  destruct (for_each (annotation_row f) lines pc); simpl; done.
Qed.

Lemma parse_domains_returns f lines pc :
  (exists pc', parse_domains_from_functional_annotations_file f lines pc = Ok pc')
  <-> exists pc', for_each (annotation_row f) lines pc = Ok pc'.
Proof.
  unfold parse_domains_from_functional_annotations_file.
  destruct (for_each (annotation_row f) lines pc) as [pc1|e]; simpl.
  - split; eauto.
  - split; intros [pc' ?]; done.
Qed.

(** C7 as stated fails on a header row that names no source: the header
    is the first row, the data row comes after it, and the error is
    raised all the same. *)
Lemma empty_header_still_missing :
  is_header "#" = true
  /\ is_data "A.1" = true
  /\ parse_domains_from_functional_annotations_file "annotation.txt" ["#"; "A.1"] demo_proteins
     = Raise (missing_header "annotation.txt").
Proof. repeat split; vm_compute; reflexivity. Qed.

Example header_then_data_parses :
  exists pc',
    parse_domains_from_functional_annotations_file "annotation.txt"
      ["# Pfam GO"; "A.1 PF1:2 None"] demo_proteins = Ok pc'
    /\ domain_sources pc' = ["Pfam"; "GO"].
Proof. eexists. split; vm_compute; reflexivity. Qed.

Example data_before_header_raises :
  parse_domains_from_functional_annotations_file "annotation.txt"
    ["A.1 PF1:2 None"; "# Pfam GO"] demo_proteins
  = Raise (missing_header "annotation.txt").
Proof. vm_compute. reflexivity. Qed.

(** C7, amended: the parser raises the missing-header error exactly when it
    reaches, with the rows before it read without error, a data row while
    the list of domain sources is empty: no header row so far (and none
    known from before), or the latest header row names no source.  So a
    first row that is a data row raises it on a fresh collection, and when
    the first row is a header and every header row names at least one
    source it is never raised. *)
Theorem missing_header_iff (f : string) (lines : list string) (pc : ProteinCollection) :
  (parse_domains_from_functional_annotations_file f lines pc = Raise (missing_header f)
   <-> exists before row after,
         lines = before ++ row :: after
         /\ is_data row = true
         /\ (exists pc', parse_domains_from_functional_annotations_file f before pc = Ok pc')
         /\ sources_after (domain_sources pc) before = [])
  /\ (forall row after,
        domain_sources pc = [] -> lines = row :: after -> is_data row = true ->
        parse_domains_from_functional_annotations_file f lines pc = Raise (missing_header f))
  /\ (forall header rest,
        lines = header :: rest -> is_header header = true ->
        Forall (fun line => is_header line = true -> header_sources line ≠ []) lines ->
        parse_domains_from_functional_annotations_file f lines pc ≠ Raise (missing_header f)).
Proof.
  assert (Hiff : parse_domains_from_functional_annotations_file f lines pc
                 = Raise (missing_header f)
                 <-> exists before row after,
                       lines = before ++ row :: after
                       /\ is_data row = true
                       /\ (exists pc', parse_domains_from_functional_annotations_file f before pc
                                       = Ok pc')
                       /\ sources_after (domain_sources pc) before = []).
  { rewrite parse_domains_raise. unfold missing_header.
    rewrite annotation_rows_missing_header. split.
    - intros (before & row & after & ? & ? & ? & ? & _).
      exists before, row, after. by rewrite parse_domains_returns.
    - intros (before & row & after & ? & ? & Hok & ?).
      exists before, row, after. by rewrite <- parse_domains_returns. }
  split; [exact Hiff|]. split.
  - intros row after Hsrc -> Hdata. apply Hiff.
    exists [], row, after. split_and!; try done. by eexists.
  - intros header rest -> Hhead Hall. rewrite Hiff.
    intros (before & row & after & Heq & Hdata & _ & Hsrc).
    destruct before as [|l before]; simpl in *; injection Heq as <- ->.
    + by rewrite (header_not_data _ Hhead) in Hdata.
    + rewrite Hhead in Hsrc. revert Hsrc. apply sources_after_named.
      * inversion Hall; auto.
      * inversion Hall as [|?? _ Hrest]; subst.
        by apply Forall_app in Hrest as [? _].
Qed.

Lemma missing_header_iff_witness :
  parse_domains_from_functional_annotations_file "annotation.txt"
    ["A.1 PF1:2 None"; "# Pfam GO"] demo_proteins
  = Raise (missing_header "annotation.txt")
  /\ parse_domains_from_functional_annotations_file "annotation.txt"
       ["# Pfam GO"; "A.1 PF1:2 None"] demo_proteins
     ≠ Raise (missing_header "annotation.txt").
Proof.
  split.
  - exact (proj1 (proj2 (missing_header_iff "annotation.txt"
             ["A.1 PF1:2 None"; "# Pfam GO"] demo_proteins))
             "A.1 PF1:2 None" ["# Pfam GO"] eq_refl eq_refl eq_refl).
  - refine (proj2 (proj2 (missing_header_iff "annotation.txt"
              ["# Pfam GO"; "A.1 PF1:2 None"] demo_proteins))
              "# Pfam GO" ["A.1 PF1:2 None"] eq_refl eq_refl _).
    repeat constructor; vm_compute; done.
Defined.

(** ** C10 *)

Lemma lookup_without_protein_lists k items :
  Json.lookup k (Api.without_protein_lists items)
  = if bool_decide (k ∈ Api.hidden_keys) then None else Json.lookup k items.
Proof.
  unfold Api.without_protein_lists.
  induction items as [|[k' v] items IH]; simpl.
  - by case_bool_decide.
  - destruct (decide (k' ∈ Api.hidden_keys)) as [Hin|Hout].
    + rewrite filter_cons_False by (simpl; tauto). rewrite IH.
      case_bool_decide as Hk; [done|]. destruct (decide (k = k')) as [->|]; done.
    + rewrite filter_cons_True by done. simpl.
      destruct (decide (k = k')) as [->|]; [|done].
      by rewrite bool_decide_eq_false_2.
Qed.

Lemma completed_passes_check func env :
  completed env -> Api.check_kinfin_session func env = func env.
Proof.
  intros [(dir & Hdir & Hne) (st & Hst & Hnot)].
  unfold Api.check_kinfin_session. rewrite Hdir, Hst.
  destruct dir; [done|].
  rewrite bool_decide_eq_false_2.
  - rewrite bool_decide_eq_false_2; [done|]. intros ->. apply Hnot.
    do 2 right. left.
  - intros Hin. apply Hnot.
    apply elem_of_cons in Hin as [->|Hin]; [left | right].
    apply elem_of_cons in Hin as [->|Hin]; [left | by apply elem_of_nil in Hin].
Qed.

Example run_summary_demo :
  Api.data (Api.content (Api.run_summary_endpoint
    (Api.mkSession (Some "/tmp/s1") (Some (Some "done"))
       (Some (Some (Json.JDict [("total_clusters", Json.JInt 3);
                                ("included_proteins", Json.JList [Json.JStr "A.1"]);
                                ("excluded_proteins", Json.JList [])]))))
    None))
  = Some (Json.JDict [("total_clusters", Json.JInt 3)]).
Proof. vm_compute. reflexivity. Qed.

(** C10: for a completed session whose summary.json parses to an object,
    the run-summary endpoint answers 200; with [detailed] absent or false
    its data is that object without the keys included_proteins and
    excluded_proteins, every other key keeping its value and its place;
    with [detailed] true its data is the object as parsed. *)
Theorem run_summary_frame (env : Api.session) (detailed : option bool)
    (items : list (string * Json.t)) :
  completed env ->
  Api.summary_file env = Some (Some (Json.JDict items)) ->
  let response := Api.run_summary_endpoint env detailed in
  Api.status_code response = 200
  /\ match detailed with
     | Some true => Api.data (Api.content response) = Some (Json.JDict items)
     | _ =>
         exists shown,
           Api.data (Api.content response) = Some (Json.JDict shown)
           /\ shown = filter (fun kv => kv.1 ∉ ["included_proteins"; "excluded_proteins"]) items
           /\ (forall k, k ∈ ["included_proteins"; "excluded_proteins"] ->
                 Json.lookup k shown = None)
           /\ (forall k, k ∉ ["included_proteins"; "excluded_proteins"] ->
                 Json.lookup k shown = Json.lookup k items)
     end.
Proof.
  intros Hdone Hfile. unfold Api.run_summary_endpoint. simpl.
  rewrite completed_passes_check by done.
  unfold Api.get_run_summary. rewrite Hfile.
  destruct detailed as [[|]|]; simpl; (split; [done|]); try done.
  all: exists (Api.without_protein_lists items); split_and!; try done.
  all: intros k Hk; rewrite lookup_without_protein_lists.
  all: first [by rewrite bool_decide_eq_true_2 | by rewrite bool_decide_eq_false_2].
Qed.

Lemma run_summary_frame_witness :
  Api.data (Api.content (Api.run_summary_endpoint
    (Api.mkSession (Some "/tmp/s1") (Some (Some "done"))
       (Some (Some (Json.JDict [("total_clusters", Json.JInt 3);
                                ("included_proteins", Json.JList [Json.JStr "A.1"])]))))
    (Some true)))
  = Some (Json.JDict [("total_clusters", Json.JInt 3);
                      ("included_proteins", Json.JList [Json.JStr "A.1"])]).
Proof.
  assert (Hdone : completed (Api.mkSession (Some "/tmp/s1") (Some (Some "done"))
       (Some (Some (Json.JDict [("total_clusters", Json.JInt 3);
                                ("included_proteins", Json.JList [Json.JStr "A.1"])]))))).
  { split; [by exists "/tmp/s1" |]. exists (Some "done"). split; [done|].
    apply (bool_decide_unpack _). vm_compute. exact I. }
  exact (proj2 (run_summary_frame _ (Some true) _ Hdone eq_refl)).
Defined.

(** * Further properties of the build pipeline *)

(** ** When a run over the cluster file aborts *)






(** ** What a run does not depend on *)



(** ** The flags a run sets *)










(** ** The per-proteome tallies *)

Lemma incr_count k d q :
  count_in (incr k d) q = count_in d q + (if decide (k = q) then 1 else 0).
Proof.
  unfold count_in. induction d as [|[k' n] d IH]; csimpl.
  - destruct (decide (k = q)) as [->|Hne].
    + by rewrite filter_cons_True.
    + by rewrite filter_cons_False.
  - destruct (decide (k' = k)) as [->|Hk].
    + destruct (decide (k = q)) as [->|Hne].
      * rewrite !filter_cons_True by done. csimpl. lia.
      * rewrite !filter_cons_False by done. lia.
    + destruct (decide (k' = q)) as [->|Hq].
      * rewrite !filter_cons_True by done. csimpl. rewrite IH. lia.
      * rewrite !filter_cons_False by done. apply IH.
Qed.

Lemma incr_keys k d :
  (incr k d).*1 = if decide (k ∈ d.*1) then d.*1 else d.*1 ++ [k].
Proof.
  induction d as [|[k' n] d IH]; csimpl.
  - destruct (decide (k ∈ [])) as [H|]; [by apply elem_of_nil in H | done].
  - destruct (decide (k' = k)) as [->|Hk]; csimpl.
    + destruct (decide (k ∈ k :: d.*1)) as [|Hn]; [done|]. exfalso. apply Hn. left.
    + rewrite IH. destruct (decide (k ∈ d.*1)) as [Hin|Hout].
      * destruct (decide (k ∈ k' :: d.*1)) as [|Hn]; [done|]. exfalso. apply Hn. by right.
      * destruct (decide (k ∈ k' :: d.*1)) as [Hin|]; [|done].
        apply elem_of_cons in Hin as [->|]; done.
Qed.

Lemma incr_NoDup k d : NoDup d.*1 -> NoDup (incr k d).*1.
Proof.
  intros Hnd. rewrite incr_keys. destruct (decide (k ∈ d.*1)); [done|].
  apply NoDup_app. split_and!; [done | | apply NoDup_singleton].
  intros x Hx ->%list_elem_of_singleton. done.
Qed.

Lemma incr_positive k d :
  Forall (fun kv => 0 < kv.2) d -> Forall (fun kv => 0 < kv.2) (incr k d).
Proof.
  induction 1 as [|[k' n] d Hn Hd IH]; simpl.
  - repeat constructor.
  - destruct (decide (k' = k)); constructor; simpl in *; try done; lia.
Qed.

Lemma incr_sum k d : sum_list (incr k d).*2 = S (sum_list d.*2).
Proof.
  induction d as [|[k' n] d IH]; csimpl; [done|].
  destruct (decide (k' = k)); csimpl; [done|]. rewrite IH. lia.
Qed.

Lemma tally_app d xs ys : tally d (xs ++ ys) = tally (tally d xs) ys.
Proof. unfold tally. apply foldl_app. Qed.

Lemma tally_facts pids d :
  NoDup d.*1 -> Forall (fun kv => 0 < kv.2) d ->
  NoDup (tally d pids).*1
  /\ Forall (fun kv => 0 < kv.2) (tally d pids)
  /\ sum_list (tally d pids).*2 = sum_list d.*2 + length pids
  /\ (forall q, count_in (tally d pids) q = count_in d q + occurrences_of q pids)
  /\ (forall q, q ∈ (tally d pids).*1 <-> q ∈ d.*1 \/ q ∈ proteome_of <$> pids).
Proof.
  revert d. induction pids as [|pid pids IH]; intros d Hnd Hpos.
  - unfold tally. csimpl. split_and!.
    + done.
    + done.
    + lia.
    + intros q. unfold occurrences_of. csimpl. lia.
    + intros q. split; [by left | intros [?|?%elem_of_nil]; done].
  - unfold tally. simpl. fold (tally (incr (proteome_of pid) d) pids).
    destruct (IH (incr (proteome_of pid) d) (incr_NoDup _ _ Hnd) (incr_positive _ _ Hpos))
      as (Hnd' & Hpos' & Hsum & Hcount & Hkeys).
    split_and!; try done.
    + rewrite Hsum, incr_sum. lia.
    + intros q. rewrite Hcount, incr_count. unfold occurrences_of.
      destruct (decide (proteome_of pid = q)) as [Heq|Hne].
      * rewrite (filter_cons_True _ pid pids) by done. simpl. lia.
      * rewrite (filter_cons_False _ pid pids) by done. lia.
    + intros q. rewrite Hkeys, incr_keys. csimpl. rewrite elem_of_cons.
      destruct (decide (proteome_of pid ∈ d.*1)) as [Hin|Hout].
      * split; [tauto|]. intros [?|[->|?]]; tauto.
      * rewrite elem_of_app, list_elem_of_singleton. split; [|tauto].
        intros [[?|?]|?]; auto.
Qed.

Lemma count_in_absent d q : q ∉ d.*1 -> count_in d q = 0.
Proof.
  unfold count_in. induction d as [|[k m] d IH]; csimpl; [done|].
  intros Hq. rewrite filter_cons_False.
  - apply IH. intros ?. apply Hq. by right.
  - simpl. intros ->. apply Hq. left.
Qed.

Lemma count_in_NoDup d q n : NoDup d.*1 -> (q, n) ∈ d -> count_in d q = n.
Proof.
  induction d as [|[k m] d IH]; simpl; [by intros _ ?%elem_of_nil|].
  intros [Hk Hnd]%NoDup_cons [[= <- <-]|Hin]%elem_of_cons.
  - unfold count_in. rewrite filter_cons_True by done. csimpl.
    fold (count_in d q). rewrite count_in_absent; [lia|]. done.
  - destruct (decide (k = q)) as [->|Hne].
    + exfalso. apply Hk. apply list_elem_of_fmap. by exists (q, n).
    + unfold count_in. rewrite filter_cons_False by done. by apply IH.
Qed.

(** A tally started empty holds, under each proteome that occurs, the
    number of its occurrences, and nothing else. *)
Lemma tally_lookup pids q n :
  (q, n) ∈ tally [] pids <-> 0 < n /\ n = occurrences_of q pids.
Proof.
  destruct (tally_facts pids [] (NoDup_nil_2) (Forall_nil_2 _))
    as (Hnd & Hpos & _ & Hcount & Hkeys).
  split.
  - intros Hin. split.
    + rewrite Forall_forall in Hpos. by apply (Hpos (q, n)).
    + rewrite <- (count_in_NoDup _ _ _ Hnd Hin), Hcount. done.
  - intros [Hn ->].
    assert (Hq : q ∈ (tally [] pids).*1).
    { apply Hkeys. right. unfold occurrences_of in Hn.
      destruct (filter (fun pid => proteome_of pid = q) pids) as [|pid l] eqn:Hf;
        [simpl in Hn; lia|].
      assert (Hpid : pid ∈ filter (fun pid => proteome_of pid = q) pids)
        by (rewrite Hf; left).
      apply list_elem_of_filter in Hpid as [<- Hpid]. by apply list_elem_of_fmap_2. }
    apply list_elem_of_fmap in Hq as ([q' m] & -> & Hin). simpl.
    rewrite <- (count_in_NoDup _ _ _ Hnd Hin), Hcount in Hin. done.
Qed.

Lemma stats_after_proteomes ap lines st :
  included_proteomes (stats_after ap lines st)
  = tally (included_proteomes st) (all_included ap lines)
  /\ excluded_proteomes (stats_after ap lines st)
     = tally (excluded_proteomes st) (all_excluded ap lines).
Proof.
  revert st. induction lines as [|line lines IH]; intros st; [done|].
  unfold stats_after. cbn [foldl]. fold (stats_after ap lines (stats_after_line ap line st)).
  destruct (IH (stats_after_line ap line st)) as [-> ->].
  unfold all_included, all_excluded. rewrite !bind_cons, !tally_app. done.
Qed.

Lemma run_final_stats cluster_f pc ap r :
  parse_cluster_file cluster_f pc ap = Ok r ->
  final_stats r = stats_after ap (Py.readlines cluster_f) (initial_stats ap)
  /\ returned r = omap (retained ap) (Py.readlines cluster_f)
  /\ filtered_txt r = cat (audit_line <$> returned r).
Proof.
  intros (s' & Hrun & ->)%parse_cluster_file_post.
  destruct (run_post ap _ _ _ Hrun) as (Hst & Hcl & Hofh & _). simpl in *.
  by rewrite Hst, Hcl, Hofh.
Qed.

Lemma all_included_available ap lines pid :
  pid ∈ all_included ap lines -> proteome_of pid ∈ ap.
Proof.
  unfold all_included. intros (line & Hpid & _)%list_elem_of_bind.
  unfold included_of in Hpid. apply list_elem_of_filter in Hpid as [Hav _].
  unfold is_available in Hav. by apply bool_decide_unpack in Hav.
Qed.

Lemma all_excluded_unavailable ap lines pid :
  pid ∈ all_excluded ap lines -> proteome_of pid ∉ ap.
Proof.
  unfold all_excluded. intros (line & Hpid & _)%list_elem_of_bind.
  unfold excluded_of in Hpid. apply list_elem_of_filter in Hpid as [Hav _].
  unfold is_available in Hav. intros Hin. apply Hav. by apply bool_decide_pack.
Qed.

(** X4: after a run the two per-proteome tallies of summary.json have
    each proteome at most once; [included_proteomes] binds exactly the
    proteomes of the included ids, each to the number of included ids of
    that proteome (never zero), all of them available proteomes, and its
    counts add up to [filtered_proteins]; [excluded_proteomes] does the
    same for the excluded ids, none of whose proteomes is available. *)
Theorem parse_cluster_file_proteome_tallies (cluster_f : string) (pc : ProteinCollection)
    (ap : list string) (r : parsed) :
  parse_cluster_file cluster_f pc ap = Ok r ->
  let st := final_stats r in
  NoDup (included_proteomes st).*1
  /\ NoDup (excluded_proteomes st).*1
  /\ (forall q n, (q, n) ∈ included_proteomes st
                  <-> 0 < n /\ n = occurrences_of q (included_proteins st))
  /\ (forall q n, (q, n) ∈ excluded_proteomes st
                  <-> 0 < n /\ n = occurrences_of q (excluded_proteins st))
  /\ (forall q, q ∈ (included_proteomes st).*1 -> q ∈ ap)
  /\ (forall q, q ∈ (excluded_proteomes st).*1 -> q ∉ ap)
  /\ sum_list (included_proteomes st).*2 = filtered_proteins st
  /\ sum_list (included_proteomes st).*2 + sum_list (excluded_proteomes st).*2
     = total_proteins st.
Proof.
  intros Hr st. destruct (run_final_stats _ _ _ _ Hr) as (Hst & _). unfold st. rewrite Hst.
  destruct (stats_after_proteomes ap (Py.readlines cluster_f) (initial_stats ap)) as [-> ->].
  destruct (stats_after_fields ap (Py.readlines cluster_f) (initial_stats ap))
    as (_ & -> & _ & _ & -> & -> & ->).
  simpl. fold (all_included ap (Py.readlines cluster_f)).
  fold (all_excluded ap (Py.readlines cluster_f)).
  destruct (tally_facts (all_included ap (Py.readlines cluster_f)) [] (NoDup_nil_2)
              (Forall_nil_2 _)) as (Hnd1 & _ & Hsum1 & _ & Hkeys1).
  destruct (tally_facts (all_excluded ap (Py.readlines cluster_f)) [] (NoDup_nil_2)
              (Forall_nil_2 _)) as (Hnd2 & _ & Hsum2 & _ & Hkeys2).
  split_and!.
  - exact Hnd1.
  - exact Hnd2.
  - intros q n. apply tally_lookup.
  - intros q n. apply tally_lookup.
  - intros q [?%elem_of_nil|(pid & -> & Hpid)%list_elem_of_fmap]%Hkeys1; [done|].
    by eapply all_included_available.
  - intros q [?%elem_of_nil|(pid & -> & Hpid)%list_elem_of_fmap]%Hkeys2; [done|].
    by eapply all_excluded_unavailable.
  - rewrite Hsum1. done.
  - rewrite Hsum1, Hsum2. simpl.
    pose proof (filter_app_complement (fun pid => is_available ap pid)
                  (Py.readlines cluster_f ≫= members)) as Hperm.
    apply Permutation_length in Hperm. rewrite length_app in Hperm.
    unfold all_included, all_excluded. rewrite bind_included_of, bind_excluded_of. lia.
Qed.

Lemma parse_cluster_file_proteome_tallies_witness :
  exists r,
    parse_cluster_file demo_cluster_f demo_proteins ["A"; "B"] = Ok r
    /\ sum_list (included_proteomes (final_stats r)).*2 = filtered_proteins (final_stats r).
Proof.
  destruct (parse_cluster_file_returns demo_cluster_f demo_proteins ["A"; "B"]
              demo_members_known) as [r Hr].
  exists r. split; [exact Hr|].
  exact (proj1 (proj2 (proj2 (proj2 (proj2 (proj2 (proj2
    (parse_cluster_file_proteome_tallies _ _ _ _ Hr)))))))).
Defined.

(** ** How the counts of summary.json compare *)

Lemma remove_dups_shorter (l : list string) : length (remove_dups l) <= length l.
Proof.
  induction l as [|x l IH]; simpl; [done|].
  destruct (decide_rel elem_of x l); simpl; lia.
Qed.

Lemma nonempty_lines_bound ap lines :
  length (filter (fun line => included_of ap line ≠ []) lines)
  <= length (lines ≫= included_of ap).
Proof.
  induction lines as [|line lines IH]; [done|].
  rewrite bind_cons, length_app.
  destruct (included_of ap line) as [|pid inc] eqn:Hinc.
  - rewrite filter_cons_False by (intros H; by apply H). simpl. lia.
  - rewrite filter_cons_True by (by rewrite Hinc). simpl. lia.
Qed.

Lemma retained_count ap lines :
  length (omap (retained ap) lines)
  = length (filter (fun line => included_of ap line ≠ []) lines).
Proof.
  induction lines as [|line lines IH]; [done|]. csimpl.
  unfold retained at 1. destruct (included_of ap line) as [|pid inc] eqn:Hinc.
  - rewrite filter_cons_False by (rewrite Hinc; intros Hx; by apply Hx). done.
  - rewrite filter_cons_True by (by rewrite Hinc). csimpl. by rewrite IH.
Qed.

(** X5: in the summary of a run the counts are ordered as they must:
    [filtered_proteins] is the length of [included_proteins];
    the number of distinct included ids is at most [filtered_proteins],
    which is at most [total_proteins]; [filtered_clusters] is at most
    [total_clusters] and at most [filtered_proteins], every retained
    cluster holding an included protein; and the list returned has
    [filtered_clusters] clusters. *)
Theorem parse_cluster_file_count_bounds (cluster_f : string) (pc : ProteinCollection)
    (ap : list string) (r : parsed) :
  parse_cluster_file cluster_f pc ap = Ok r ->
  let st := final_stats r in
  filtered_proteins st = length (included_proteins st)
  /\ length (remove_dups (included_proteins st)) <= filtered_proteins st
  /\ filtered_proteins st <= total_proteins st
  /\ length (remove_dups (excluded_proteins st)) <= total_proteins st - filtered_proteins st
  /\ filtered_clusters st <= total_clusters st
  /\ filtered_clusters st <= filtered_proteins st
  /\ length (returned r) = filtered_clusters st
  /\ total_proteomes st = length ap.
Proof.
  intros Hr st. destruct (run_final_stats _ _ _ _ Hr) as (Hst & Hret & _).
  unfold st. rewrite Hst, Hret.
  destruct (stats_after_fields ap (Py.readlines cluster_f) (initial_stats ap))
    as (-> & -> & -> & -> & -> & -> & ->).
  simpl.
  pose proof (remove_dups_shorter (Py.readlines cluster_f ≫= included_of ap)).
  pose proof (remove_dups_shorter (Py.readlines cluster_f ≫= excluded_of ap)).
  pose proof (nonempty_lines_bound ap (Py.readlines cluster_f)).
  pose proof (length_filter (fun line => included_of ap line ≠ []) (Py.readlines cluster_f)).
  pose proof (filter_app_complement (fun pid => is_available ap pid)
                (Py.readlines cluster_f ≫= members)) as Hperm.
  apply Permutation_length in Hperm. rewrite length_app in Hperm.
  rewrite <- bind_included_of, <- bind_excluded_of in Hperm.
  pose proof (retained_count ap (Py.readlines cluster_f)) as Hlen.
  split_and!; try done; lia.
Qed.

Lemma parse_cluster_file_count_bounds_witness :
  exists r,
    parse_cluster_file demo_cluster_f demo_proteins ["A"; "B"] = Ok r
    /\ filtered_proteins (final_stats r) = length (included_proteins (final_stats r)).
Proof.
  destruct (parse_cluster_file_returns demo_cluster_f demo_proteins ["A"; "B"]
              demo_members_known) as [r Hr].
  exists r. split; [exact Hr|].
  exact (proj1 (parse_cluster_file_count_bounds _ _ _ _ Hr)).
Defined.

(** ** The clusters a run returns *)

Lemma split_char_pieces c s p : p ∈ Py.split (String c "") s -> c ∉ chars p.
Proof.
  revert p. induction s as [|a s IH]; intros p.
  - intros ->%list_elem_of_singleton. by intros ?%elem_of_nil.
  - unfold Py.split. simpl. destruct (decide (c = a)) as [->|Hca].
    + fold (Py.split (String a "") s).
      intros [->|Hp]%elem_of_cons; [by intros ?%elem_of_nil | by apply IH].
    + fold (Py.split (String c "") s).
      intros [->|[(q & -> & Hq)|Hp]]%cons_hd_elem.
      * intros [?|?%elem_of_nil]%elem_of_cons; done.
      * intros [?|?]%elem_of_cons; [done | by eapply IH].
      * by apply IH.
Qed.


Lemma member_is_field line pid : pid ∈ members line -> pid ≠ "" /\ pid ∈ fields_of line.
Proof.
  unfold members, protein_ids_of. intros [Hne Hin]%list_elem_of_filter. split; [done|].
  destruct (fields_of line); [done | by right].
Qed.

Lemma retained_inv ap line c :
  retained ap line = Some c ->
  cluster_id c = line_cluster_id line /\ protein_ids c = included_of ap line
  /\ included_of ap line ≠ [].
Proof.
  unfold retained. destruct (included_of ap line) eqn:Hinc; [done|].
  intros [= <-]. done.
Qed.



(** ** Reading the audit file back *)

Lemma glue_cons_hd c p pieces :
  pieces ≠ [] -> Py.cons_hd c (glue p pieces) = glue (String c p) pieces.
Proof. by destruct pieces. Qed.

Lemma glue_nil pieces : pieces ≠ [] -> glue "" pieces = pieces.
Proof. by destruct pieces. Qed.

(** A two-character separator does not match inside a piece that lacks
    its second character, nor across the end of the piece when what
    follows does not start with that character. *)
Lemma split2_prefix a b p rest :
  b ∉ chars p ->
  (rest = "" \/ exists x r, rest = String x r /\ x ≠ b) ->
  Py.split (String a (String b "")) (p +:+ rest)
  = glue p (Py.split (String a (String b "")) rest).
Proof.
  intros Hp Hrest. induction p as [|c p IH].
  - simpl. symmetry. apply glue_nil, split_go_nonempty.
  - rewrite append_cons. unfold Py.split. cbn [Py.split_go].
    assert (Hno : Py.startswith (String a (String b "")) (String c (p +:+ rest)) = false).
    { simpl. destruct (decide (a = c)); [|done].
      destruct p as [|y p'].
      - change ("" +:+ rest) with rest.
        destruct Hrest as [->|(x & r & -> & Hx)]; [done|].
        destruct (decide (b = x)); [by subst | done].
      - rewrite append_cons. destruct (decide (b = y)) as [->|]; [|done].
        exfalso. apply Hp. right. left. }
    rewrite Hno. fold (Py.split (String a (String b "")) (p +:+ rest)).
    rewrite IH by (intros ?; apply Hp; by right).
    apply glue_cons_hd, split_go_nonempty.
Qed.

Lemma split2_join a b ids :
  a ≠ b -> ids ≠ [] -> Forall (fun pid => b ∉ chars pid) ids ->
  Py.split (String a (String b "")) (Py.join (String a (String b "")) ids) = ids.
Proof.
  intros Hab Hne Hall. induction Hall as [|x ids Hx Hids IH]; [done|]. clear Hne.
  destruct ids as [|y ids].
  - simpl. rewrite <- (append_nil_r x) at 1. rewrite split2_prefix by auto.
    simpl. by rewrite append_nil_r.
  - change (Py.join (String a (String b "")) (x :: y :: ids))
      with (x +:+ String a (String b "") +:+ Py.join (String a (String b "")) (y :: ids)).
    rewrite split2_prefix; [|done|].
    + rewrite split_at_sep, IH by done. simpl. by rewrite append_nil_r.
    + right. rewrite append_cons. eauto.
Qed.

(** The text [", "]-joined from ids without spaces holds no [": "]. *)
Lemma split_colon_join ids :
  Forall (fun pid => " "%char ∉ chars pid) ids ->
  Py.split ": " (Py.join ", " ids) = [Py.join ", " ids].
Proof.
  induction 1 as [|x ids Hx Hids IH]; [done|].
  destruct ids as [|y ids].
  - simpl. rewrite <- (append_nil_r x) at 1.
    rewrite (split2_prefix ":"%char " "%char) by auto. simpl. by rewrite append_nil_r.
  - change (Py.join ", " (x :: y :: ids)) with (x +:+ ", " +:+ Py.join ", " (y :: ids)).
    rewrite (split2_prefix ":"%char " "%char); [|done|].
    + change (", " +:+ Py.join ", " (y :: ids))
        with (String ","%char (String " "%char (Py.join ", " (y :: ids)))).
      unfold Py.split in *. cbn [Py.split_go Py.startswith].
      destruct (decide (":"%char = ","%char)); [done|].
      destruct (decide (":"%char = " "%char)); [done|].
      rewrite IH. done.
    + right. exists ","%char. eexists. split; [reflexivity | done].
Qed.

Lemma sort_length ids : length (Py.sort ids) = length ids.
Proof. apply Permutation_length, sort_perm. Qed.

Lemma returned_cluster_shape cluster_f pc ap r c :
  parse_cluster_file cluster_f pc ap = Ok r ->
  c ∈ returned r ->
  protein_ids c ≠ []
  /\ (" "%char ∉ chars (cluster_id c))
  /\ (forall pid, pid ∈ protein_ids c -> " "%char ∉ chars pid).
Proof.
  intros Hr Hc. destruct (run_final_stats _ _ _ _ Hr) as (_ & Hret & _).
  rewrite Hret in Hc. apply list_elem_of_omap in Hc as (line & Hline & Hc).
  destruct (retained_inv _ _ _ Hc) as (Hid & Hids & Hne).
  split_and!.
  - by rewrite Hids.
  - rewrite Hid. intros Hin%replace_empty_chars. revert Hin.
    apply (split_char_pieces " "%char (Py.rstrip_nl line)). apply first_elem.
  - intros pid. rewrite Hids. intros [_ Hmem]%list_elem_of_filter.
    destruct (member_is_field _ _ Hmem) as [_ Hfield].
    by apply (split_char_pieces " "%char (Py.rstrip_nl line)).
Qed.

(** X7: the audit file can be read back: splitting the line of a returned
    cluster at [": "] gives the cluster id and the member text, and
    splitting the member text at [", "] gives the sorted member ids. *)
Theorem audit_line_reads_back (cluster_f : string) (pc : ProteinCollection)
    (ap : list string) (r : parsed) (c : Cluster) :
  parse_cluster_file cluster_f pc ap = Ok r ->
  c ∈ returned r ->
  audit_line c = terminated (audit_body c)
  /\ Py.split ": " (audit_body c)
     = [cluster_id c; Py.join ", " (Py.sort (protein_ids c))]
  /\ Py.split ", " (Py.join ", " (Py.sort (protein_ids c))) = Py.sort (protein_ids c).
Proof.
  intros Hr Hc.
  destruct (returned_cluster_shape _ _ _ _ _ Hr Hc)
    as (Hne & Hcid & Hids).
  assert (Hsorted : Forall (fun pid => " "%char ∉ chars pid) (Py.sort (protein_ids c))).
  { apply Forall_forall. intros pid Hpid. apply Hids. by rewrite sort_perm in Hpid. }
  split_and!.
  - apply audit_line_terminated.
  - unfold audit_body. rewrite (split2_prefix ":"%char " "%char); [|done|].
    + change (": " +:+ Py.join ", " (Py.sort (protein_ids c)))
        with (String ":"%char (String " "%char "") +:+ Py.join ", " (Py.sort (protein_ids c))).
      rewrite split_at_sep. change (String ":"%char (String " "%char "")) with ": ".
      rewrite split_colon_join by done. simpl. by rewrite append_nil_r.
    + right. exists ":"%char. eexists. split; [reflexivity | done].
  - apply (split2_join ","%char " "%char); [done | | done].
    intros Hnil. apply Hne. apply (f_equal length) in Hnil.
    rewrite sort_length in Hnil. by destruct (protein_ids c).
Qed.

Lemma demo_small_run :
  parse_cluster_file "OG1: B.1 A.2" demo_proteins ["A"; "B"] = Ok demo_small_result.
Proof. vm_compute. reflexivity. Defined.

Lemma audit_line_reads_back_witness :
  Py.split ": " (audit_body (mkCluster "OG1" ["B.1"; "A.2"])) = ["OG1"; "A.2, B.1"].
Proof.
  refine (proj1 (proj2 (audit_line_reads_back _ _ _ _
                          (mkCluster "OG1" ["B.1"; "A.2"]) demo_small_run _))).
  left.
Defined.

(** ** A file none of whose ids is included *)






(** ** Clusters of the file and inferred singletons together *)







(** ** The id mapping as a whole *)

Lemma split_contains c sep s a b :
  s = a +:+ String c sep +:+ b ->
  exists p q qs, Py.split (String c sep) s = p :: q :: qs.
Proof.
  revert s. induction a as [|x a IH]; intros s ->.
  - change ("" +:+ String c sep +:+ b) with (String c sep +:+ b). rewrite split_at_sep.
    destruct (Py.split (String c sep) b) as [|q qs] eqn:Hq;
      [by apply split_go_nonempty in Hq | eauto].
  - rewrite append_cons.
    destruct (Py.startswith (String c sep) (String x (a +:+ String c sep +:+ b))) eqn:Hs.
    + apply startswith_true in Hs as [r ->]. rewrite split_at_sep.
      destruct (Py.split (String c sep) r) as [|q qs] eqn:Hq;
        [by apply split_go_nonempty in Hq | eauto].
    + unfold Py.split. cbn [Py.split_go]. rewrite Hs.
      fold (Py.split (String c sep) (a +:+ String c sep +:+ b)).
      destruct (IH _ eq_refl) as (p & q & qs & ->). simpl. eauto.
Qed.

(** [split] gives a single piece exactly when the separator does not
    occur. *)
Lemma split_single sep s :
  sep ≠ "" -> (exists p, Py.split sep s = [p]) <-> ¬ contains sep s.
Proof.
  intros Hsep. split.
  - intros [p Hp] (a & b & Hs). destruct sep as [|c sep]; [done|].
    destruct (split_contains c sep s a b Hs) as (p' & q & qs & Heq). congruence.
  - intros Hno. destruct (Py.split sep s) as [|p ps] eqn:Hp.
    { by apply split_go_nonempty in Hp. }
    destruct (split_first _ _ _ _ Hsep Hp) as [[-> _]|(r & -> & _)]; [eauto|].
    exfalso. apply Hno. by exists p, r.
Qed.

Lemma seq_line_cases m line proteins :
  (contains ": " line /\ seq_line m line proteins = Ok (proteins ++ line_proteins m line))
  \/ (¬ contains ": " line /\ seq_line m line proteins = Raise IndexError).
Proof.
  assert (Hne : ": " ≠ "") by done.
  unfold seq_line, line_proteins.
  destruct (Py.split ": " line) as [|seq_id [|field more]] eqn:Hsplit.
  - by apply split_go_nonempty in Hsplit.
  - right. split; [|done]. apply (split_single ": " line Hne). eauto.
  - left. split.
    + destruct (split_first _ _ _ _ Hne Hsplit) as [[? _]|(r & -> & _)]; [done|].
      by exists seq_id, r.
    + simpl. unfold contributed. rewrite protein_id_of_field_sanitize.
      destruct (m !! species_of seq_id) as [proteome|]; [|by rewrite app_nil_r].
      destruct (decide (proteome = "")); [by rewrite app_nil_r | done].
Qed.

Example walrus_drops_empty_proteome :
  get_protein_list_from_seq_f ["0_0: A.1"; "1_0: B.1"] (<["0" := ""]> (<["1" := "B"]> ∅))
  = Ok [new_Protein "B.1" "B" "1" "1_0"].
Proof. vm_compute. reflexivity. Qed.

(** X10: [get_protein_list_from_seq_f] fails exactly when some line lacks
    [": "], and then with the [IndexError] of [temp[1]]; when every line
    has it, the list returned is what the lines yield one after the other,
    in file order. *)
Theorem get_protein_list_from_seq_f_result (lines : list string) (m : gmap string string) :
  (Forall (contains ": ") lines ->
   get_protein_list_from_seq_f lines m = Ok (lines ≫= line_proteins m))
  /\ (Exists (fun line => ¬ contains ": " line) lines ->
      get_protein_list_from_seq_f lines m = Raise IndexError)
  /\ (forall e, get_protein_list_from_seq_f lines m = Raise e ->
                e = IndexError /\ Exists (fun line => ¬ contains ": " line) lines)
  /\ (forall ps, get_protein_list_from_seq_f lines m = Ok ps ->
                 Forall (contains ": ") lines /\ ps = lines ≫= line_proteins m).
Proof.
  unfold get_protein_list_from_seq_f.
  assert (Hgen : forall acc,
    (Forall (contains ": ") lines
     /\ for_each (seq_line m) lines acc = Ok (acc ++ (lines ≫= line_proteins m)))
    \/ (Exists (fun line => ¬ contains ": " line) lines
        /\ for_each (seq_line m) lines acc = Raise IndexError)).
  { induction lines as [|line lines IH]; intros acc.
    - left. split; [constructor|]. simpl. by rewrite app_nil_r.
    - cbn [for_each]. rewrite bind_cons.
      destruct (seq_line_cases m line acc) as [[Hc ->]|[Hn ->]]; simpl.
      + destruct (IH (acc ++ line_proteins m line)) as [[Hall ->]|[Hex ->]].
        * left. split; [by constructor | by rewrite app_assoc].
        * right. split; [by apply Exists_cons_tl | done].
      + right. split; [by apply Exists_cons_hd | done]. }
  destruct (Hgen []) as [[Hall Hok]|[Hex Hraise]]; simpl in *.
  - split_and!.
    + done.
    + intros Hex. exfalso. apply Exists_exists in Hex as (line & Hline & Hn).
      rewrite Forall_forall in Hall. by apply Hn, Hall.
    + intros e. by rewrite Hok.
    + intros ps. rewrite Hok. by intros [= <-].
  - split_and!.
    + intros Hall. exfalso. apply Exists_exists in Hex as (line & Hline & Hn).
      rewrite Forall_forall in Hall. by apply Hn, Hall.
    + done.
    + intros e. rewrite Hraise. by intros [= <-].
    + intros ps. by rewrite Hraise.
Qed.

Lemma get_protein_list_from_seq_f_result_witness :
  get_protein_list_from_seq_f ["0_0: A.1 desc"; "no separator"] (<["0" := "A"]> ∅)
  = Raise IndexError.
Proof.
  refine (proj1 (proj2 (get_protein_list_from_seq_f_result
                          ["0_0: A.1 desc"; "no separator"] (<["0" := "A"]> ∅))) _).
  apply Exists_cons_tl, Exists_cons_hd.
  apply (split_single ": " "no separator"); [done|]. by eexists.
Defined.

Lemma line_proteins_inv m line p :
  p ∈ line_proteins m line ->
  line_proteins m line = [p]
  /\ exists seq_id field more,
       Py.split ": " line = seq_id :: field :: more
       /\ p = new_Protein (map_chars sanitize (first (Py.split " " field)))
                          (proteome_id p) (species_of seq_id) seq_id
       /\ m !! species_of seq_id = Some (proteome_id p)
       /\ proteome_id p ≠ "".
Proof.
  unfold line_proteins.
  destruct (Py.split ": " line) as [|seq_id [|field more]] eqn:Hsplit;
    try by intros ?%elem_of_nil.
  unfold contributed. destruct (m !! species_of seq_id) as [proteome|] eqn:Hm;
    [|by intros ?%elem_of_nil].
  destruct (decide (proteome = "")); [by intros ?%elem_of_nil|].
  intros ->%list_elem_of_singleton. split; [done|].
  exists seq_id, field, more. done.
Qed.

Lemma line_proteins_short m line : length (line_proteins m line) <= 1.
Proof.
  unfold line_proteins. destruct (Py.split ": " line) as [|seq_id [|field more]]; simpl; try lia.
  unfold contributed. destruct (m !! species_of seq_id) as [proteome|]; simpl; [|lia].
  destruct (decide (proteome = "")); simpl; lia.
Qed.

Lemma seq_file_returns lines m ps :
  get_protein_list_from_seq_f lines m = Ok ps -> ps = lines ≫= line_proteins m.
Proof.
  unfold get_protein_list_from_seq_f.
  assert (Hgen : forall acc out,
            for_each (seq_line m) lines acc = Ok out ->
            out = acc ++ (lines ≫= line_proteins m)).
  { induction lines as [|line lines IH]; intros acc out.
    - intros [= <-]. by rewrite app_nil_r.
    - cbn [for_each]. rewrite bind_cons.
      destruct (seq_line_cases m line acc) as [[_ ->]|[_ ->]]; [|done]. simpl.
      intros ->%IH. by rewrite app_assoc. }
  intros H. by apply Hgen in H.
Qed.

(** X11: every protein [get_protein_list_from_seq_f] returns is new (not
    clustered, no annotation), carries the non-empty proteome id the
    mapping gives for its species prefix, a species id without [_], a
    protein id without [:], [,], [(], [)] or space, and the sequence id
    some line starts with; and there is at most one protein per line. *)
Theorem get_protein_list_from_seq_f_proteins (lines : list string) (m : gmap string string)
    (ps : list Protein) :
  get_protein_list_from_seq_f lines m = Ok ps ->
  length ps <= length lines
  /\ forall p, p ∈ ps ->
       clustered p = false
       /\ domain_counter_by_domain_source p = ∅
       /\ go_terms p = []
       /\ proteome_id p ≠ ""
       /\ m !! species_id p = Some (proteome_id p)
       /\ species_id p = species_of (sequence_id p)
       /\ ("_"%char ∉ chars (species_id p))
       /\ (forall c, c ∈ chars (protein_id p) -> c ∉ [":"; ","; "("; ")"; " "]%char)
       /\ exists line rest, line ∈ lines /\ line = sequence_id p +:+ ": " +:+ rest.
Proof.
  intros Hok.
  apply seq_file_returns in Hok as ->.
  split.
  - induction lines as [|line lines IH]; [done|]. rewrite bind_cons, length_app.
    pose proof (line_proteins_short m line). simpl. lia.
  - intros p (line & Hp & Hline)%list_elem_of_bind.
    destruct (line_proteins_inv _ _ _ Hp) as (_ & seq_id & field & more & Hsplit & Heq & Hm & Hne).
    rewrite Heq. simpl. split_and!; try done.
    + apply (first_piece "_"%char seq_id).
    + intros c. rewrite chars_map_chars. intros (c0 & -> & Hc0)%list_elem_of_fmap.
      assert (Hsp : c0 ≠ " "%char).
      { intros ->. by apply (proj1 (first_piece " "%char field)). }
      unfold sanitize. case_bool_decide as Hc.
      * intros Hin. repeat (apply elem_of_cons in Hin as [?|Hin]; [done|]).
        by apply elem_of_nil in Hin.
      * intros Hin. apply Hc.
        repeat (apply elem_of_cons in Hin as [->|Hin];
                [first [done | by repeat first [left | right]]|]).
        by apply elem_of_nil in Hin.
    + assert (Hsep : ": " ≠ "") by done.
      destruct (split_first _ _ _ _ Hsep Hsplit) as [[? _]|(rest & -> & _)]; [done|].
      by exists (seq_id +:+ ": " +:+ rest), rest.
Qed.

Lemma get_protein_list_from_seq_f_proteins_witness :
  length [new_Protein "B_1__x_y" "B" "1" "1_0"] <= length ["1_0: B(1):x,y rest"; "9_0: Z.1"].
Proof.
  assert (Hok : get_protein_list_from_seq_f ["1_0: B(1):x,y rest"; "9_0: Z.1"]
                  (<["1" := "B"]> ∅)
                = Ok [new_Protein "B_1__x_y" "B" "1" "1_0"]) by (vm_compute; reflexivity).
  exact (proj1 (get_protein_list_from_seq_f_proteins _ _ _ Hok)).
Defined.

(** ** Entries and rows of the annotation table *)

Lemma rsplit_length e :
  length (Py.rsplit_colon_2 e) = length (Py.split ":" e) `min` 3.
Proof.
  unfold Py.rsplit_colon_2. destruct (decide (length (Py.split ":" e) <= 3)); [lia|].
  cbn [length]. rewrite length_drop. lia.
Qed.

Lemma rsplit_two e id cnt :
  Py.rsplit_colon_2 e = [id; cnt] ->
  e = id +:+ ":" +:+ cnt /\ (":"%char ∉ chars id) /\ (":"%char ∉ chars cnt).
Proof.
  intros Hr. pose proof (rsplit_length e) as Hlen. rewrite Hr in Hlen. simpl in Hlen.
  unfold Py.rsplit_colon_2 in Hr.
  destruct (decide (length (Py.split ":" e) <= 3)); [|lia].
  assert (Hne : ":" ≠ "") by done.
  assert (Hid : ":"%char ∉ chars id).
  { apply (split_char_pieces ":"%char e). change (String ":"%char "") with ":".
    rewrite Hr. left. }
  assert (Hcnt : ":"%char ∉ chars cnt).
  { apply (split_char_pieces ":"%char e). change (String ":"%char "") with ":".
    rewrite Hr. right. left. }
  split; [|done].
  destruct (split_first _ _ _ _ Hne Hr) as [[? _]|(r & -> & Hrest)]; [done|].
  symmetry in Hrest.
  destruct (split_first _ _ _ _ Hne Hrest) as [[_ ->]|(r' & _ & Hnil)]; [done|].
  symmetry in Hnil. by apply split_go_nonempty in Hnil.
Qed.

Lemma rsplit_one e : ":"%char ∉ chars e -> Py.rsplit_colon_2 e = [e].
Proof.
  intros Hno. unfold Py.rsplit_colon_2. change ":" with (String ":"%char "").
  by rewrite split_char_none.
Qed.

(** X12: how one [;]-separated entry is read.  Under the source [GO] any
    entry is a term with count 1 and nothing is raised.  Under another
    source the entry is read exactly when it is [id:count] with one
    colon and an integer literal after it; without a colon, or with more
    than one, unpacking raises (one value, three values), and a count
    that is no integer literal raises the [ValueError] of [int]. *)
Theorem count_entry_reads (source e : string) (m : gmap string Z) :
  (source = "GO" -> count_entry source e m = Ok (<[e := 1%Z]> m))
  /\ (source ≠ "GO" ->
      forall m',
        count_entry source e m = Ok m'
        <-> exists id cnt n,
              e = id +:+ ":" +:+ cnt /\ (":"%char ∉ chars id) /\ (":"%char ∉ chars cnt)
              /\ Py.int cnt = Ok n /\ m' = <[id := n]> m)
  /\ (source ≠ "GO" -> ":"%char ∉ chars e ->
      count_entry source e m = Raise (ValueError (Unpack 1)))
  /\ (forall x,
        count_entry source e m = Raise x ->
        source ≠ "GO"
        /\ (x = ValueError (Unpack 1) \/ x = ValueError (Unpack 3)
            \/ exists cnt, x = ValueError (IntLiteral cnt))).
Proof.
  split_and!.
  - intros ->. done.
  - intros Hgo m'. unfold count_entry. destruct (decide (source = "GO")); [done|]. split.
    + destruct (Py.rsplit_colon_2 e) as [|id [|cnt [|??]]] eqn:Hr; try done.
      destruct (Py.int cnt) as [z|] eqn:Hint; [|done]. simpl. intros [= <-].
      destruct (rsplit_two _ _ _ Hr) as (-> & ? & ?). by exists id, cnt, z.
    + intros (id & cnt & k & -> & Hid & Hcnt & Hint & ->).
      rewrite rsplit_id_count by done. by rewrite Hint.
  - intros Hgo Hno. unfold count_entry. destruct (decide (source = "GO")); [done|].
    by rewrite rsplit_one.
  - intros x. unfold count_entry. destruct (decide (source = "GO")); [done|].
    pose proof (rsplit_length e) as Hlen.
    destruct (Py.rsplit_colon_2 e) as [|id [|cnt [|y [|??]]]] eqn:Hr; simpl in Hlen.
    + pose proof (split_go_nonempty ":" 0 e). unfold Py.split in Hlen.
      destruct (Py.split_go ":" 0 e); [done | simpl in Hlen; lia].
    + intros [= <-]. auto.
    + destruct (Py.int cnt) as [z|x'] eqn:Hint; [done|]. simpl. intros [= <-].
      apply int_raise in Hint as ->. split; [done|]. right. right. by eexists.
    + intros [= <-]. auto.
    + lia.
Qed.

Lemma count_entry_reads_witness :
  count_entry "Pfam" "PF00069:2" ∅ = Ok (<["PF00069" := 2%Z]> ∅)
  /\ count_entry "Pfam" "PF00069" ∅ = Raise (ValueError (Unpack 1)).
Proof.
  assert (Hgo : "Pfam" ≠ "GO") by done.
  split.
  - apply (proj1 (proj2 (count_entry_reads "Pfam" "PF00069:2" ∅)) Hgo).
    exists "PF00069", "2", 2%Z. split_and!; try done.
    + apply (bool_decide_unpack _). vm_compute. exact I.
    + apply (bool_decide_unpack _). vm_compute. exact I.
  - apply (proj1 (proj2 (proj2 (count_entry_reads "Pfam" "PF00069" ∅))) Hgo).
    apply (bool_decide_unpack _). vm_compute. exact I.
Defined.

Lemma counts_entries source entries m counter :
  for_each (count_entry source) entries m = Ok counter ->
  Forall (fun e => exists pr, entry_pair source e = Ok pr) entries.
Proof.
  revert m. induction entries as [|e entries IH]; intros m; [by constructor|].
  simpl. destruct (count_entry source e m) as [m1|] eqn:He; [|done]. simpl.
  intros Hrest. constructor; [|by eapply IH].
  apply count_entry_pair in He as (pr & Hpr & _). by exists pr.
Qed.

Lemma row_counters_well_formed sources temp d :
  row_counters sources temp = Ok d -> row_well_formed sources temp.
Proof.
  unfold row_counters. revert d.
  induction temp as [|x temp IH] using rev_ind; intros d.
  { intros _ idx field Hl. by rewrite lookup_nil in Hl. }
  rewrite imap_app, for_each_app. simpl. rewrite Nat.add_0_r.
  destruct (for_each (field_entry sources) (imap pair temp) ∅) as [d1|] eqn:Hd1; [|done].
  simpl. intros Hx idx field Hl Hfield.
  apply lookup_snoc_Some in Hl as [[_ Hl]|[-> ->]]; [by eapply IH|].
  destruct (decide (field = "None")); [done|].
  destruct (sources !! length temp) as [source|]; [|done].
  exists source. split; [done|].
  destruct (for_each (count_entry source) (Py.split ";" field) ∅) as [c|] eqn:Hc; [|done].
  by eapply counts_entries.
Qed.

(** X13: the fields of a data row are read exactly when the row is well
    formed for the header: every field other than [None] stands in a
    column the header names and each of its [;]-separated pieces is a GO
    term or an [id:count] pair with an integer count.  Otherwise the row
    raises, and what it raises is the [IndexError] of a field beyond the
    header or a [ValueError] of unpacking or of [int]. *)
Theorem row_counters_returns_iff (sources temp : list string) :
  ((exists d, row_counters sources temp = Ok d) <-> row_well_formed sources temp)
  /\ (forall x,
        row_counters sources temp = Raise x ->
        ~ row_well_formed sources temp
        /\ (x = IndexError \/ x = ValueError (Unpack 1) \/ x = ValueError (Unpack 3)
            \/ exists cnt, x = ValueError (IntLiteral cnt)))
  /\ (forall idx field,
        temp !! idx = Some field -> field ≠ "None" -> length sources <= idx ->
        exists x, row_counters sources temp = Raise x).
Proof.
  split_and!.
  - split; [intros [d Hd]; by eapply row_counters_well_formed | apply row_counters_returns].
  - intros x Hraise. split.
    { intros [d Hd]%row_counters_returns. congruence. }
    unfold row_counters in Hraise.
    apply for_each_raise in Hraise as ([idx field] & acc & _ & Hraise).
    unfold field_entry in Hraise. destruct (decide (field = "None")); [done|].
    destruct (sources !! idx) as [src|]; [|injection Hraise as <-; by left].
    destruct (for_each (count_entry src) (Py.split ";" field) ∅) as [c|x'] eqn:Hc; [done|].
    simpl in Hraise. injection Hraise as <-.
    apply for_each_raise in Hc as (e & m & _ & Hc). right.
    unfold count_entry in Hc. destruct (decide (src = "GO")); [done|].
    pose proof (rsplit_length e) as Hlen.
    destruct (Py.rsplit_colon_2 e) as [|id [|cnt [|y [|??]]]] eqn:Hr; simpl in Hlen.
    + pose proof (split_go_nonempty ":" 0 e). unfold Py.split in Hlen.
      destruct (Py.split_go ":" 0 e); [done | simpl in Hlen; lia].
    + injection Hc as <-. auto.
    + destruct (Py.int cnt) as [z|x''] eqn:Hint; [done|]. simpl in Hc. injection Hc as <-.
      apply int_raise in Hint as ->. right. right. by eexists.
    + injection Hc as <-. auto.
    + lia.
  - intros idx field Hl Hfield Hlen.
    destruct (row_counters sources temp) as [d|x] eqn:Hrow; [|by eexists].
    apply row_counters_well_formed in Hrow.
    destruct (Hrow idx field Hl Hfield) as (source & Hs & _).
    apply lookup_lt_Some in Hs. lia.
Qed.

Lemma row_counters_returns_iff_witness :
  (exists x, row_counters ["Pfam"] ["PF1:2"; "GO:1"] = Raise x)
  /\ ~ row_well_formed ["Pfam"] ["PF1:2"; "GO:1"].
Proof.
  destruct (proj2 (proj2 (row_counters_returns_iff ["Pfam"] ["PF1:2"; "GO:1"]))
              1 "GO:1" eq_refl ltac:(done) ltac:(simpl; lia)) as [x Hx].
  split; [by exists x|].
  exact (proj1 (proj1 (proj2 (row_counters_returns_iff ["Pfam"] ["PF1:2"; "GO:1"])) x Hx)).
Defined.

(** ** When the annotation table parses *)

Lemma annotation_row_returns_iff f line pc :
  (exists pc', annotation_row f line pc = Ok pc')
  <-> Py.split_ws line ≠ []
      /\ (is_data line = true ->
          domain_sources pc ≠ []
          /\ row_well_formed (domain_sources pc) (tail (Py.split_ws line))).
Proof.
  unfold annotation_row, is_data. destruct (Py.split_ws line) as [|t0 temp]; cbn [tail].
  { split; [by intros [? ?] | by intros [? _]]. }
  destruct (Py.startswith "#" t0); cbn [negb].
  { split; [intros _; split; [done | intros ?; discriminate] | by eexists]. }
  destruct (domain_sources pc) as [|s0 srcs].
  { split; [by intros [? ?] | intros [_ Hd]; by destruct (Hd eq_refl)]. }
  split.
  - intros [pc' Hrow]. split; [done|]. intros _. split; [done|].
    destruct (row_counters (s0 :: srcs) temp) as [d|] eqn:Hd; [|done].
    by eapply row_counters_well_formed.
  - intros [_ Hd]. destruct (Hd eq_refl) as [_ [d ->]%row_counters_returns].
    simpl. by eexists.
Qed.

Lemma annotation_rows_return_iff f lines pc :
  (exists pc', for_each (annotation_row f) lines pc = Ok pc')
  <-> Forall (fun line => Py.split_ws line ≠ []) lines
      /\ (forall before row after,
            lines = before ++ row :: after -> is_data row = true ->
            sources_after (domain_sources pc) before ≠ []
            /\ row_well_formed (sources_after (domain_sources pc) before)
                 (tail (Py.split_ws row))).
Proof.
  revert pc. induction lines as [|line lines IH]; intros pc.
  { split; [|by eexists]. intros _. split; [by constructor|].
    intros before row after Heq. by destruct before. }
  simpl. split.
  - intros [pc' Hrun].
    destruct (annotation_row f line pc) as [pc1|] eqn:Hrow; [|done]. simpl in Hrun.
    assert (Hline : exists pc1, annotation_row f line pc = Ok pc1) by eauto.
    apply annotation_row_returns_iff in Hline as [Hne Hdata].
    assert (Hrest : exists pc', for_each (annotation_row f) lines pc1 = Ok pc') by eauto.
    apply IH in Hrest as [Hall Hrows]. split; [by constructor|].
    intros before row after Heq Hrowd. destruct before as [|l before].
    + simpl in Heq. injection Heq as <- <-. by apply Hdata.
    + simpl in Heq. injection Heq as <- ->. simpl.
      rewrite <- (annotation_row_sources _ _ _ _ Hrow). by eapply Hrows.
  - intros [Hall Hrows]. apply Forall_cons in Hall as [Hne Hall].
    destruct (proj2 (annotation_row_returns_iff f line pc)) as [pc1 Hrow].
    { split; [done|]. intros Hd. exact (Hrows [] line lines eq_refl Hd). }
    rewrite Hrow. simpl. apply IH. split; [done|].
    intros before row after -> Hd.
    rewrite (annotation_row_sources _ _ _ _ Hrow).
    exact (Hrows (line :: before) row after eq_refl Hd).
Qed.

Lemma annotation_rows_sources f lines pc pc' :
  for_each (annotation_row f) lines pc = Ok pc' ->
  domain_sources pc' = sources_after (domain_sources pc) lines.
Proof.
  revert pc. induction lines as [|line lines IH]; intros pc; simpl.
  { by intros [= <-]. }
  destruct (annotation_row f line pc) as [pc1|] eqn:Hrow; [|done]. simpl.
  intros Hrest. rewrite (IH _ Hrest). by rewrite (annotation_row_sources _ _ _ _ Hrow).
Qed.

(** X14: the annotation table parses exactly when no line is blank and
    every data row comes while the latest header names at least one
    source and is well formed for that header.  When it parses, the
    store is flagged as annotated and its domain sources are those of
    the last header row (the ones it had before if the table has no
    header row). *)
Theorem parse_domains_returns_iff (f : string) (lines : list string)
    (pc : ProteinCollection) :
  ((exists pc', parse_domains_from_functional_annotations_file f lines pc = Ok pc')
   <-> Forall (fun line => Py.split_ws line ≠ []) lines
       /\ (forall before row after,
             lines = before ++ row :: after -> is_data row = true ->
             sources_after (domain_sources pc) before ≠ []
             /\ row_well_formed (sources_after (domain_sources pc) before)
                  (tail (Py.split_ws row))))
  /\ (forall pc',
        parse_domains_from_functional_annotations_file f lines pc = Ok pc' ->
        functional_annotation_parsed pc' = true
        /\ domain_sources pc' = sources_after (domain_sources pc) lines).
Proof.
  split.
  - rewrite parse_domains_returns. apply annotation_rows_return_iff.
  - intros pc'. unfold parse_domains_from_functional_annotations_file.
    destruct (for_each (annotation_row f) lines pc) as [pc1|] eqn:Hrun; [|done].
    simpl. intros [= <-]. split; [done|]. simpl. by eapply annotation_rows_sources.
Qed.

Lemma parse_domains_returns_iff_witness :
  functional_annotation_parsed
    (with_annotation_parsed (with_domain_sources demo_proteins ["Pfam"; "GO"])) = true
  /\ domain_sources
       (with_annotation_parsed (with_domain_sources demo_proteins ["Pfam"; "GO"]))
     = sources_after (domain_sources demo_proteins) ["# Pfam GO"].
Proof.
  exact (proj2 (parse_domains_returns_iff "annotation.txt" ["# Pfam GO"] demo_proteins)
           (with_annotation_parsed (with_domain_sources demo_proteins ["Pfam"; "GO"]))
           eq_refl).
Defined.

(** ** The session check around the endpoints *)

Lemma check_cases func env :
  (completed env /\ Api.check_kinfin_session func env = func env)
  \/ (in_progress env
      /\ Api.status_code (Api.check_kinfin_session func env) = 202
      /\ Api.data (Api.content (Api.check_kinfin_session func env)) = is_complete false)
  \/ (~ completed env /\ ~ in_progress env
      /\ Api.status_code (Api.check_kinfin_session func env) ∈ [428; 400]
      /\ Api.data (Api.content (Api.check_kinfin_session func env)) = None).
Proof.
  unfold Api.check_kinfin_session.
  destruct (Api.session_dir env) as [[|c dir]|] eqn:Hdir.
  - right. right. split; [|split; [|split; [left|done]]].
    + intros [(d & Hd & ?) _]. congruence.
    + intros [(d & Hd & ?) _]. congruence.
  - destruct (Api.run_status env) as [st|] eqn:Hst.
    + case_bool_decide as Hrun.
      * right. left. split; [|done]. split; [by eexists|]. by exists st.
      * case_bool_decide as Herr.
        -- right. right. subst st. split; [|split; [|split; [right; left|done]]].
           ++ intros [_ (st & Hst' & Hnot)]. rewrite Hst in Hst'. injection Hst' as <-.
              apply Hnot. do 2 right. left.
           ++ intros [_ (st & Hst' & Hin)]. rewrite Hst in Hst'. by injection Hst' as <-.
        -- left. split; [|done]. split; [by eexists|]. exists st. split; [done|].
           intros [->|Hin]%elem_of_cons.
           { apply Hrun. left. }
           apply elem_of_cons in Hin as [->|Hin].
           { apply Hrun. right. left. }
           apply elem_of_cons in Hin as [->|Hin]; [done|]. by apply elem_of_nil in Hin.
    + right. right. split; [|split; [|split; [left|done]]].
      * intros [_ (st & ? & _)]. congruence.
      * intros [_ (st & ? & _)]. congruence.
  - right. right. split; [|split; [|split; [left|done]]].
    + intros [(d & ? & _) _]. congruence.
    + intros [(d & ? & _) _]. congruence.
Qed.

(** X15: the session check lets a request through to the endpoint only
    for a completed session.  For any other session the answer is the
    check's own, whatever the endpoint would have said: it never carries
    status code 200, and its data is absent or says that the analysis is
    not complete. *)
Theorem check_kinfin_session_gates (func : Api.session -> Api.JSONResponse)
    (env : Api.session) :
  ~ completed env ->
  (forall func', Api.check_kinfin_session func env = Api.check_kinfin_session func' env)
  /\ Api.status_code (Api.check_kinfin_session func env) ≠ 200
  /\ (Api.data (Api.content (Api.check_kinfin_session func env)) = None
      \/ Api.data (Api.content (Api.check_kinfin_session func env)) = is_complete false).
Proof.
  intros Hnot. split.
  - intros func'. unfold Api.check_kinfin_session.
    destruct (Api.session_dir env) as [[|c dir]|] eqn:Hdir; [done| |done].
    destruct (Api.run_status env) as [st|] eqn:Hst; [|done].
    case_bool_decide as Hrun; [done|]. case_bool_decide as Herr; [done|].
    exfalso. apply Hnot. split; [by eexists|]. exists st. split; [done|].
    intros [->|Hin]%elem_of_cons.
    { apply Hrun. left. }
    apply elem_of_cons in Hin as [->|Hin].
    { apply Hrun. right. left. }
    apply elem_of_cons in Hin as [->|Hin]; [done|]. by apply elem_of_nil in Hin.
  - destruct (check_cases func env) as [[Hc _]|[(_ & -> & ->)|(_ & _ & Hcode & ->)]].
    + done.
    + split; [done | by right].
    + split; [|by left].
      apply elem_of_cons in Hcode as [->|Hcode]; [done|].
      apply elem_of_cons in Hcode as [->|Hcode]; [done|]. by apply elem_of_nil in Hcode.
Qed.

Lemma check_kinfin_session_gates_witness :
  Api.status_code (Api.check_kinfin_session get_run_status
     (Api.mkSession (Some "/tmp/s1") (Some (Some "running")) None)) ≠ 200.
Proof.
  refine (proj1 (proj2 (check_kinfin_session_gates get_run_status
     (Api.mkSession (Some "/tmp/s1") (Some (Some "running")) None) _))).
  intros [_ (st & Hst & Hnot)]. simpl in Hst. injection Hst as <-. apply Hnot. left.
Defined.

(** X16: the status endpoint reports a complete analysis exactly for a
    completed session, and an incomplete one, with status code 202,
    exactly while the status file says running or pending. *)
Theorem run_status_endpoint_reports (env : Api.session) :
  (Api.data (Api.content (run_status_endpoint env)) = is_complete true <-> completed env)
  /\ (Api.status_code (run_status_endpoint env) = 200 <-> completed env)
  /\ (Api.data (Api.content (run_status_endpoint env)) = is_complete false
      <-> in_progress env)
  /\ (Api.status_code (run_status_endpoint env) = 202 <-> in_progress env).
Proof.
  unfold run_status_endpoint.
  destruct (check_cases get_run_status env)
    as [[Hc ->]|[(Hp & -> & ->)|(Hnc & Hnp & Hcode & ->)]].
  - assert (Hnp : ~ in_progress env).
    { intros [_ (st & Hst & Hin)]. destruct Hc as [_ (st' & Hst' & Hnot)].
      rewrite Hst in Hst'. injection Hst' as <-. apply Hnot.
      apply elem_of_cons in Hin as [->|Hin]; [left|].
      apply elem_of_cons in Hin as [->|Hin]; [right; left|]. by apply elem_of_nil in Hin. }
    simpl. split_and!; split; done.
  - assert (Hnc : ~ completed env).
    { intros [_ (st' & Hst' & Hnot)]. destruct Hp as [_ (st & Hst & Hin)].
      rewrite Hst in Hst'. injection Hst' as <-. apply Hnot.
      apply elem_of_cons in Hin as [->|Hin]; [left|].
      apply elem_of_cons in Hin as [->|Hin]; [right; left|]. by apply elem_of_nil in Hin. }
    split_and!; split; done.
  - assert (Hc200 : Api.status_code (Api.check_kinfin_session get_run_status env) ≠ 200).
    { intros Heq. rewrite Heq in Hcode.
      apply elem_of_cons in Hcode as [?|Hcode]; [done|].
      apply elem_of_cons in Hcode as [?|Hcode]; [done|]. by apply elem_of_nil in Hcode. }
    assert (Hc202 : Api.status_code (Api.check_kinfin_session get_run_status env) ≠ 202).
    { intros Heq. rewrite Heq in Hcode.
      apply elem_of_cons in Hcode as [?|Hcode]; [done|].
      apply elem_of_cons in Hcode as [?|Hcode]; [done|]. by apply elem_of_nil in Hcode. }
    split_and!; split; done.
Qed.

Lemma run_status_endpoint_reports_witness :
  Api.status_code (run_status_endpoint
     (Api.mkSession (Some "/tmp/s1") (Some (Some "done")) None)) = 200.
Proof.
  apply (proj2 (proj1 (proj2 (run_status_endpoint_reports
     (Api.mkSession (Some "/tmp/s1") (Some (Some "done")) None))))).
  split; [by exists "/tmp/s1" |]. exists (Some "done"). split; [done|].
  apply (bool_decide_unpack _). vm_compute. exact I.
Defined.

(** ** The run summary beyond the success path *)




(** ** From the build to the run-summary endpoint *)



(** ** Annotation and clustering *)





